(** * The B+-tree insert engine and the B+-tree cursors

    A shallow embedding of [src/btree_insert.c] and [src/btree_cursor.c].
    Pages live in a store indexed by their page id, a pointer to a page is
    its id (0 is the NULL pointer), and the C functions become functions
    in a small state monad over the database object.  Code that is not
    part of the two files (pager, blob store, transaction manager, node
    search) is either a section variable or carries a comment that says
    where its model comes from. *)

From Stdlib Require Import ZArith List Bool Lia.
From stdpp Require Import base option list gmap.

Local Open Scope Z_scope.

(** ** Status codes and flags *)

Definition ham_status_t := Z.

(** The public status codes of [ham/hamsterdb.h]. *)
Definition HAM_SUCCESS : ham_status_t := 0.
Definition HAM_OUT_OF_MEMORY : ham_status_t := -6.
Definition HAM_NOT_INITIALIZED : ham_status_t := -7.
Definition HAM_INV_PARAMETER : ham_status_t := -8.
Definition HAM_KEY_NOT_FOUND : ham_status_t := -11.
Definition HAM_DUPLICATE_KEY : ham_status_t := -12.
Definition HAM_CURSOR_IS_NIL : ham_status_t := -100.

(** [btree_insert.c], "return values" and "flags for my_insert_nosplit()". *)
Definition SPLIT : ham_status_t := 1.
Definition NOFLUSH : Z := 1.
Definition OVERWRITE : Z := 2.

(** Flag bits of a slot ([keys.h]). *)
Definition KEY_BLOB_SIZE_TINY : Z := 1.
Definition KEY_BLOB_SIZE_SMALL : Z := 2.
Definition KEY_BLOB_SIZE_EMPTY : Z := 4.

(** [sizeof(ham_offset_t)]: the pointer word of a slot has 64 bits. *)
Definition sizeof_ham_offset_t : Z := 8.

(** [flags & bit] as a C condition. *)
Definition has_flag (flags bit : Z) : bool := negb (Z.land flags bit =? 0).

(** A 32-bit unsigned value ([ham_size_t], [ham_u32_t]). *)
Definition u32 (z : Z) : Z := z mod 2 ^ 32.

(** ** Keys, records, slots, nodes and pages *)

(** [ham_key_t]: [key_data = None] is a NULL data pointer. *)
Record ham_key_t := mk_key {
  key_size : Z;
  key_data : option (list Z)
}.

Record ham_record_t := mk_record {
  record_size : Z;
  record_data : list Z
}.

(** A slot of a node ([key_t] in btree_insert.c, [int_key_t] in
    btree_cursor.c): key bytes, key length, flag bits, pointer word. *)
Record int_key_t := mk_int_key {
  key_get_key : list Z;
  key_get_size : Z;
  key_get_flags : Z;
  key_get_ptr : Z
}.

Definition key_set_key (e : int_key_t) (data : option (list Z)) (size : Z) : int_key_t :=
  mk_int_key (take (Z.to_nat size) (default [] data))
             (key_get_size e) (key_get_flags e) (key_get_ptr e).
Definition key_set_size (e : int_key_t) (size : Z) : int_key_t :=
  mk_int_key (key_get_key e) size (key_get_flags e) (key_get_ptr e).
Definition key_set_flags (e : int_key_t) (flags : Z) : int_key_t :=
  mk_int_key (key_get_key e) (key_get_size e) flags (key_get_ptr e).
Definition key_set_ptr (e : int_key_t) (ptr : Z) : int_key_t :=
  mk_int_key (key_get_key e) (key_get_size e) (key_get_flags e) ptr.

(** Untouched page memory reads as zero. *)
Definition key0 : int_key_t := mk_int_key [] 0 0 0.

(** The node header and the packed slot array of a page.  [node_count] is
    the header's entry count; [node_entries] is the memory of the slot
    array, which keeps whatever was written beyond [node_count]. *)
Record btree_node_t := mk_node {
  node_count : Z;
  node_left : Z;
  node_right : Z;
  node_ptr_left : Z;
  node_entries : list int_key_t
}.

Definition node_set_count (n : Z) (nd : btree_node_t) :=
  mk_node n (node_left nd) (node_right nd) (node_ptr_left nd) (node_entries nd).
Definition node_set_left (v : Z) (nd : btree_node_t) :=
  mk_node (node_count nd) v (node_right nd) (node_ptr_left nd) (node_entries nd).
Definition node_set_right (v : Z) (nd : btree_node_t) :=
  mk_node (node_count nd) (node_left nd) v (node_ptr_left nd) (node_entries nd).
Definition node_set_ptr_left (v : Z) (nd : btree_node_t) :=
  mk_node (node_count nd) (node_left nd) (node_right nd) v (node_entries nd).
Definition node_set_entries (es : list int_key_t) (nd : btree_node_t) :=
  mk_node (node_count nd) (node_left nd) (node_right nd) (node_ptr_left nd) es.

Inductive page_type := PAGE_TYPE_UNKNOWN | PAGE_TYPE_ROOT | PAGE_TYPE_INDEX.

Record ham_page_t := mk_page {
  page_type_of : page_type;
  page_dirty : bool;
  page_node : btree_node_t;
  page_cursors : list Z;
  page_refcount : Z
}.

Definition node0 : btree_node_t := mk_node 0 0 0 0 [].
Definition fresh_page (ty : page_type) : ham_page_t := mk_page ty false node0 [] 0.

(** *** The slot array as memory *)

Definition pad (n : nat) (es : list int_key_t) : list int_key_t :=
  es ++ replicate (n - length es) key0.

(** [btree_node_get_key(db, node, i)] followed by a read of the slot. *)
Definition slot_read (es : list int_key_t) (i : Z) : int_key_t :=
  nth (Z.to_nat i) es key0.

(** Writing [vals] at slot [off] and the following slots. *)
Definition slots_blit (es : list int_key_t) (off : Z) (vals : list int_key_t)
  : list int_key_t :=
  let o := Z.to_nat off in
  take o (pad o es) ++ vals ++ drop (o + length vals) es.

Definition slot_write (es : list int_key_t) (i : Z) (e : int_key_t) : list int_key_t :=
  slots_blit es i [e].

(** The [n] slots that start at slot [off]. *)
Definition slots_copy (es : list int_key_t) (off n : Z) : list int_key_t :=
  let o := Z.to_nat off in
  let k := Z.to_nat n in
  take k (drop o (pad (o + k) es)).

(** *** Inlined records: bytes of the pointer word, little endian *)

Fixpoint le_bytes (bs : list Z) : Z :=
  match bs with
  | [] => 0
  | b :: bs' => Z.lor (Z.land b 255) (Z.shiftl (le_bytes bs') 8)
  end.

(** [memcpy(&rid, data, size)]: the low [size] bytes of [rid] are replaced. *)
Definition memcpy_rid (rid : Z) (data : list Z) (size : Z) : Z :=
  Z.lor (Z.shiftl (Z.shiftr rid (8 * size)) (8 * size))
        (le_bytes (take (Z.to_nat size) data)).

(** [p[sizeof(ham_offset_t)-1] = size] for [char *p = (char * )&rid]. *)
Definition set_last_byte (rid : Z) (size : Z) : Z :=
  Z.lor (Z.land rid (2 ^ 56 - 1)) (Z.shiftl (Z.land size 255) 56).

(** ** The state monad of the embedding *)

(** The outcome of a run: a value and the new state, a crash (a NULL or
    dangling page pointer is dereferenced, a [ham_assert] fails), or an
    exhausted recursion budget. *)
Inductive run (S A : Type) : Type :=
| Ret (a : A) (s : S)
| Crash
| NoFuel.
Arguments Ret {S A} a s.
Arguments Crash {S A}.
Arguments NoFuel {S A}.

Definition M (S A : Type) : Type := S -> run S A.

Definition ret {S A} (a : A) : M S A := fun s => Ret a s.
Definition bind {S A B} (m : M S A) (k : A -> M S B) : M S B :=
  fun s => match m s with
           | Ret a s' => k a s'
           | Crash => Crash
           | NoFuel => NoFuel
           end.
Definition crash {S A} : M S A := fun _ => Crash.
Definition gets {S A} (f : S -> A) : M S A := fun s => Ret (f s) s.
Definition modify {S} (f : S -> S) : M S unit := fun s => Ret tt (f s).
Definition ham_assert {S} (b : bool) : M S unit :=
  if b then ret tt else crash.

Declare Scope monad_scope.
Delimit Scope monad_scope with monad.
Notation "x <- m ;; k" := (bind m (fun x => k))
  (at level 20, m at level 99, k at level 200,
   format "'[v' x  <-  m  ;;  '/' k ']'") : monad_scope.
Notation "m ;;; k" := (bind m (fun _ => k))
  (at level 100, k at level 200, right associativity,
   format "'[v' m  ;;;  '/' k ']'") : monad_scope.
Local Open Scope monad_scope.

(** ** Interfaces of code that is not in the two files *)

(** The comparator registry: the active order over key bytes, with the
    sign convention of [key_compare_int_to_pub] (negative: the left key is
    smaller; 0: equal; positive: the left key is greater). *)
Class Comparator := { compare_keys : list Z -> list Z -> Z }.

(** [btree_node_is_leaf] is a macro of [btree.h], which is not among the
    sources.  It reads the node header; the entry count and the slots do
    not decide whether a node is a leaf. *)
Class NodeLayout := {
  node_is_leaf : btree_node_t -> bool;
  node_is_leaf_count : forall n nd,
    node_is_leaf (node_set_count n nd) = node_is_leaf nd;
  node_is_leaf_entries : forall es nd,
    node_is_leaf (node_set_entries es nd) = node_is_leaf nd
}.

(** * btree_insert.c *)

Module BtreeInsert.

(** Writes to the sibling chain and dirty marks, in program order. *)
Inductive event :=
| Set_left (page value : Z)
| Set_right (page value : Z)
| Set_dirty (page : Z).

(** The database object as [btree_insert.c] sees it, together with the
    collaborators it calls.

    Modelled from the spec: the pager, the blob store and the allocator
    behind [ham_mem_alloc] are not among the sources.  The pager hands out
    the page ids of [pager_fresh] in turn and fails when none is left; the
    blob store does the same with [blob_fresh]; [mem_budget] is the number
    of allocations that still succeed. *)
Record ham_db_t := mk_db {
  db_pages : gmap Z ham_page_t;
  btree_rootpage : Z;
  btree_maxkeys : Z;
  db_dirty : bool;
  db_error : ham_status_t;
  db_blobs : gmap Z (list Z);
  pager_fresh : list Z;
  blob_fresh : list Z;
  mem_budget : nat;
  db_log : list event
}.

Definition set_pages (f : gmap Z ham_page_t -> gmap Z ham_page_t) (db : ham_db_t) :=
  mk_db (f (db_pages db)) (btree_rootpage db) (btree_maxkeys db) (db_dirty db)
        (db_error db) (db_blobs db) (pager_fresh db) (blob_fresh db)
        (mem_budget db) (db_log db).
Definition set_rootpage (r : Z) (db : ham_db_t) :=
  mk_db (db_pages db) r (btree_maxkeys db) (db_dirty db)
        (db_error db) (db_blobs db) (pager_fresh db) (blob_fresh db)
        (mem_budget db) (db_log db).
Definition set_dirty (d : bool) (db : ham_db_t) :=
  mk_db (db_pages db) (btree_rootpage db) (btree_maxkeys db) d
        (db_error db) (db_blobs db) (pager_fresh db) (blob_fresh db)
        (mem_budget db) (db_log db).
Definition set_error (e : ham_status_t) (db : ham_db_t) :=
  mk_db (db_pages db) (btree_rootpage db) (btree_maxkeys db) (db_dirty db)
        e (db_blobs db) (pager_fresh db) (blob_fresh db)
        (mem_budget db) (db_log db).
Definition set_blobs (f : gmap Z (list Z) -> gmap Z (list Z)) (db : ham_db_t) :=
  mk_db (db_pages db) (btree_rootpage db) (btree_maxkeys db) (db_dirty db)
        (db_error db) (f (db_blobs db)) (pager_fresh db) (blob_fresh db)
        (mem_budget db) (db_log db).
Definition set_pager_fresh (l : list Z) (db : ham_db_t) :=
  mk_db (db_pages db) (btree_rootpage db) (btree_maxkeys db) (db_dirty db)
        (db_error db) (db_blobs db) l (blob_fresh db)
        (mem_budget db) (db_log db).
Definition set_blob_fresh (l : list Z) (db : ham_db_t) :=
  mk_db (db_pages db) (btree_rootpage db) (btree_maxkeys db) (db_dirty db)
        (db_error db) (db_blobs db) (pager_fresh db) l
        (mem_budget db) (db_log db).
Definition set_mem_budget (n : nat) (db : ham_db_t) :=
  mk_db (db_pages db) (btree_rootpage db) (btree_maxkeys db) (db_dirty db)
        (db_error db) (db_blobs db) (pager_fresh db) (blob_fresh db)
        n (db_log db).
Definition log_event (e : event) (db : ham_db_t) :=
  mk_db (db_pages db) (btree_rootpage db) (btree_maxkeys db) (db_dirty db)
        (db_error db) (db_blobs db) (pager_fresh db) (blob_fresh db)
        (mem_budget db) (db_log db ++ [e]).

Local Abbreviation M := (M ham_db_t).

(** *** Access to a page through its pointer *)

Definition read_page {A} (page : Z) (f : ham_page_t -> A) : M A :=
  fun db => match db_pages db !! page with
            | Some p => Ret (f p) db
            | None => Crash
            end.

Definition write_page (page : Z) (f : ham_page_t -> ham_page_t) : M unit :=
  fun db => match db_pages db !! page with
            | Some p => Ret tt (set_pages (insert page (f p)) db)
            | None => Crash
            end.

Definition with_node (f : btree_node_t -> btree_node_t) (p : ham_page_t) : ham_page_t :=
  mk_page (page_type_of p) (page_dirty p) (f (page_node p))
          (page_cursors p) (page_refcount p).


(** The page id is the page's self-pointer. *)
Definition page_get_self (page : Z) : Z := page.

Definition btree_node_get_count (page : Z) : M Z :=
  read_page page (fun p => node_count (page_node p)).
Definition btree_node_get_left (page : Z) : M Z :=
  read_page page (fun p => node_left (page_node p)).
Definition btree_node_get_right (page : Z) : M Z :=
  read_page page (fun p => node_right (page_node p)).
Definition btree_node_get_ptr_left (page : Z) : M Z :=
  read_page page (fun p => node_ptr_left (page_node p)).
Definition btree_node_get_key (page : Z) (i : Z) : M int_key_t :=
  read_page page (fun p => slot_read (node_entries (page_node p)) i).

Definition btree_node_set_count (page : Z) (n : Z) : M unit :=
  write_page page (with_node (node_set_count n)).
Definition btree_node_set_ptr_left (page : Z) (v : Z) : M unit :=
  write_page page (with_node (node_set_ptr_left v)).
Definition btree_node_set_left (page : Z) (v : Z) : M unit :=
  write_page page (with_node (node_set_left v)) ;;;
  modify (log_event (Set_left page v)).
Definition btree_node_set_right (page : Z) (v : Z) : M unit :=
  write_page page (with_node (node_set_right v)) ;;;
  modify (log_event (Set_right page v)).

(** A write through a slot pointer [bte] of the page. *)
Definition update_key (page : Z) (i : Z) (f : int_key_t -> int_key_t) : M unit :=
  write_page page (with_node (fun nd =>
    node_set_entries (slot_write (node_entries nd) i (f (slot_read (node_entries nd) i))) nd)).

Definition page_set_dirty (page : Z) (d : bool) : M unit :=
  write_page page (fun p => mk_page (page_type_of p) d (page_node p)
                                    (page_cursors p) (page_refcount p)) ;;;
  modify (log_event (Set_dirty page)).

Definition page_set_type (page : Z) (ty : page_type) : M unit :=
  write_page page (fun p => mk_page ty (page_dirty p) (page_node p)
                                    (page_cursors p) (page_refcount p)).

Definition db_get_error : M ham_status_t := gets db_error.
Definition db_set_error (e : ham_status_t) : M unit := modify (set_error e).
Definition btree_get_rootpage : M Z := gets btree_rootpage.
Definition btree_set_rootpage (r : Z) : M unit := modify (set_rootpage r).
Definition btree_get_maxkeys : M Z := gets btree_maxkeys.
Definition db_set_dirty (d : bool) : M unit := modify (set_dirty d).

(** *** Pager, blob store, allocator *)

(** Modelled from the spec: [db_fetch_page] (db.c).  The page pointer, or
    NULL when the pager has no page of that id. *)
Definition db_fetch_page (id : Z) : M Z :=
  fun db => match db_pages db !! id with
            | Some _ => Ret id db
            | None => Ret 0 db
            end.

(** Modelled from the spec: [db_alloc_page] (db.c).  A zeroed page of the
    next fresh id; NULL and [HAM_OUT_OF_MEMORY] as the database error when
    the pager has none. *)
Definition db_alloc_page (ty : page_type) : M Z :=
  fun db => match pager_fresh db with
            | id :: rest =>
                Ret id (set_pages (insert id (fresh_page ty)) (set_pager_fresh rest db))
            | [] => Ret 0 (set_error HAM_OUT_OF_MEMORY db)
            end.

(** Modelled from the spec: [db_free_page] (db.c). *)
Definition db_free_page (page : Z) : M unit :=
  modify (set_pages (delete page)).

(** Modelled from the spec: [blob_allocate] (blob.c).  The status and the
    blob id that is stored through [&rid]. *)
Definition blob_allocate (data : list Z) (size : Z) (rid : Z) : M (ham_status_t * Z) :=
  fun db => match blob_fresh db with
            | id :: rest =>
                Ret (HAM_SUCCESS, id)
                    (set_blobs (insert id (take (Z.to_nat size) data))
                               (set_blob_fresh rest db))
            | [] => Ret (HAM_OUT_OF_MEMORY, rid) db
            end.

(** Modelled from the spec: [util_copy_key] (util.c), a copy of the key
    in a buffer of its own; [None] when the allocation fails. *)
Definition util_copy_key (src : ham_key_t) : M (option ham_key_t) :=
  fun db => match mem_budget db with
            | O => Ret None db
            | S n => Ret (Some (mk_key (key_size src) (Some (default [] (key_data src)))))
                         (set_mem_budget n db)
            end.

Definition ham_mem_free : M unit :=
  fun db => Ret tt (set_mem_budget (S (mem_budget db)) db).

(** *** The scratchpad *)

Record insert_scratchpad_t := mk_scratchpad {
  sp_flags : Z;
  sp_record : ham_record_t;
  sp_key : ham_key_t;
  sp_rid : Z
}.

Definition sp_set_pivot (k : ham_key_t) (rid : Z) (sp : insert_scratchpad_t) :=
  mk_scratchpad (sp_flags sp) (sp_record sp) k rid.

Section Insert.
Context {CMP : Comparator} {NL : NodeLayout}.

Definition btree_node_is_leaf (page : Z) : M bool :=
  read_page page (fun p => node_is_leaf (page_node p)).

(** The bytes a public key hands to the comparator. *)
Definition key_bytes (key : ham_key_t) : list Z :=
  take (Z.to_nat (key_size key)) (default [] (key_data key)).

(** Modelled from the spec: [key_compare_int_to_pub] (keys.c) compares
    the key of slot [i] of the page with a public key.  Extended keys and
    a comparator that refuses are outside this model. *)
Definition key_compare_int_to_pub (page : Z) (i : Z) (key : ham_key_t) : M Z :=
  e <- btree_node_get_key page i ;;
  ret (compare_keys (key_get_key e) (key_bytes key)).

(** Modelled from the spec: [btree_node_search_by_key] (btree.c), the
    index of the slot that holds the key, or a negative value. *)
Fixpoint search_from (n : nat) (page : Z) (key : ham_key_t) (i : Z) : M Z :=
  match n with
  | O => ret (-1)
  | S n' =>
      cmp <- key_compare_int_to_pub page i key ;;
      if cmp =? 0 then ret i else search_from n' page key (i + 1)
  end.

Definition btree_node_search_by_key (page : Z) (key : ham_key_t) : M Z :=
  count <- btree_node_get_count page ;;
  search_from (Z.to_nat count) page key 0.

(** Modelled from the spec: [btree_traverse_tree] (btree.c), section 4.3:
    the left-pointer child if the key is below slot 0, else the child of
    the slot with the greatest key not exceeding the key. *)
Fixpoint traverse_from (n : nat) (page : Z) (key : ham_key_t) (i : Z) (child : Z) : M Z :=
  match n with
  | O => ret child
  | S n' =>
      cmp <- key_compare_int_to_pub page i key ;;
      if cmp >? 0 then ret child
      else e <- btree_node_get_key page i ;;
           traverse_from n' page key (i + 1) (key_get_ptr e)
  end.

Definition btree_traverse_tree (page : Z) (key : ham_key_t) : M Z :=
  count <- btree_node_get_count page ;;
  left <- btree_node_get_ptr_left page ;;
  child <- traverse_from (Z.to_nat count) page key 0 left ;;
  db_fetch_page child.

(** [memmove] inside the slot array of a page: [n] slots from slot [src]
    to slot [dst]. *)
Definition memmove_keys (page : Z) (dst src n : Z) : M unit :=
  write_page page (with_node (fun nd =>
    node_set_entries
      (slots_blit (node_entries nd) dst (slots_copy (node_entries nd) src n)) nd)).

(** [memcpy] of [n] slots from slot [src] of page [from] to slot [dst] of
    page [to]. *)
Definition memcpy_keys (to dst from src n : Z) : M unit :=
  vals <- read_page from (fun p => slots_copy (node_entries (page_node p)) src n) ;;
  write_page to (with_node (fun nd =>
    node_set_entries (slots_blit (node_entries nd) dst vals) nd)).

(** *** my_insert_nosplit *)

(** How the scan over the slots ends: with a [return], or at slot [i]
    (after the [break], or with [i == count]). *)
Inductive scan_exit :=
| Returned (st : ham_status_t)
| Stopped (i : Z).

Fixpoint nosplit_scan (n : nat) (page : Z) (key : ham_key_t) (flags count i : Z)
  : M scan_exit :=
  match n with
  | O => ret (Stopped i)
  | S n' =>
      cmp <- key_compare_int_to_pub page i key ;;
      err <- db_get_error ;;
      if negb (err =? 0) then ret (Returned err)
      else if cmp =? 0 then
        (if has_flag flags OVERWRITE
         then ret (Returned HAM_SUCCESS)
         else ret (Returned HAM_DUPLICATE_KEY))
      else if cmp >? 0 then
        memmove_keys page (i + 1) i (u32 (count - i)) ;;;
        ret (Stopped i)
      else nosplit_scan n' page key flags count (i + 1)
  end.

Definition my_insert_nosplit (page : Z) (key : ham_key_t) (rid : Z)
    (record : ham_record_t) (flags : Z) : M ham_status_t :=
  count <- btree_node_get_count page ;;
  x <- nosplit_scan (Z.to_nat count) page key flags count 0 ;;
  match x with
  | Returned st => ret st
  | Stopped i =>
      leaf <- btree_node_is_leaf page ;;
      r <- (if leaf && (record_size record >? sizeof_ham_offset_t)
            then blob_allocate (record_data record) (record_size record) rid
            else ret (HAM_SUCCESS, rid)) ;;
      if negb (fst r =? 0) then ret (fst r)
      else
        let rid := snd r in
        update_key page i (fun e => key_set_flags e 0) ;;;
        leaf <- btree_node_is_leaf page ;;
        rid <- (if leaf then
                  if record_size record =? 0 then
                    update_key page i (fun e =>
                      key_set_flags e (Z.lor (key_get_flags e) KEY_BLOB_SIZE_EMPTY)) ;;;
                    ret rid
                  else if record_size record <=? sizeof_ham_offset_t then
                    let rid := memcpy_rid rid (record_data record) (record_size record) in
                    if record_size record <? sizeof_ham_offset_t then
                      update_key page i (fun e =>
                        key_set_flags e (Z.lor (key_get_flags e) KEY_BLOB_SIZE_TINY)) ;;;
                      ret (set_last_byte rid (record_size record))
                    else
                      update_key page i (fun e =>
                        key_set_flags e (Z.lor (key_get_flags e) KEY_BLOB_SIZE_SMALL)) ;;;
                      ret rid
                  else ret rid
                else ret rid) ;;
        update_key page i (fun e => key_set_key e (key_data key) (key_size key)) ;;;
        update_key page i (fun e => key_set_ptr e rid) ;;;
        update_key page i (fun e => key_set_size e (key_size key)) ;;;
        page_set_dirty page true ;;;
        btree_node_set_count page (u32 (count + 1)) ;;;
        ret 0
  end.

(** *** my_insert_split, in the three steps of the function *)

(** What the first step hands to the next ones. *)
Record split_t := mk_split {
  split_newpage : Z;
  split_pivot : Z;
  split_pivotkey : ham_key_t;
  split_pivotrid : Z
}.

(** "allocate a new page", "move half of the key/rid-tuples to the new
    page", "store the pivot element", "adjust the page count", "fix the
    ptr_left of the new page".  [inl st] is an early [return (st)]. *)
Definition split_move_keys (page : Z) : M (ham_status_t + split_t) :=
  newpage <- db_alloc_page PAGE_TYPE_INDEX ;;
  if newpage =? 0 then (e <- db_get_error ;; ret (inl e))
  else
    count <- btree_node_get_count page ;;
    let pivot := count / 2 in
    leaf <- btree_node_is_leaf page ;;
    (if leaf
     then memcpy_keys newpage 0 page pivot (u32 (count - pivot))
     else memcpy_keys newpage 0 page (pivot + 1) (u32 (count - pivot - 1))) ;;;
    nbte <- btree_node_get_key page pivot ;;
    pk <- util_copy_key (mk_key (key_get_size nbte) (Some (key_get_key nbte))) ;;
    match pk with
    | None =>
        db_free_page newpage ;;;
        db_set_error HAM_OUT_OF_MEMORY ;;;
        ret (inl HAM_OUT_OF_MEMORY)
    | Some pivotkey =>
        let pivotrid := page_get_self newpage in
        leaf <- btree_node_is_leaf page ;;
        (if leaf
         then btree_node_set_count page pivot ;;;
              btree_node_set_count newpage (u32 (count - pivot))
         else btree_node_set_count page pivot ;;;
              btree_node_set_count newpage (u32 (count - pivot - 1))) ;;;
        leaf <- btree_node_is_leaf page ;;
        (if negb leaf
         then nbte <- btree_node_get_key page pivot ;;
              btree_node_set_ptr_left newpage (key_get_ptr nbte)
         else ret tt) ;;;
        ret (inr (mk_split newpage pivot pivotkey pivotrid))
    end.

(** "insert the new element". *)
Definition split_insert_key (page newpage pivot : Z) (key : ham_key_t) (rid : Z)
    (record : ham_record_t) (flags : Z) : M ham_status_t :=
  cmp <- key_compare_int_to_pub page pivot key ;;
  err <- db_get_error ;;
  if negb (err =? 0) then ret err
  else if cmp <=? 0
  then my_insert_nosplit newpage key rid record (Z.lor flags NOFLUSH)
  else my_insert_nosplit page key rid record (Z.lor flags NOFLUSH).

(** "fix the double-linked list of pages, and mark the pages as dirty". *)
Definition split_link_siblings (page newpage : Z) : M unit :=
  right <- btree_node_get_right page ;;
  oldsib <- (if negb (right =? 0) then db_fetch_page right else ret 0) ;;
  btree_node_set_left newpage (page_get_self page) ;;;
  right <- btree_node_get_right page ;;
  btree_node_set_right newpage right ;;;
  btree_node_set_right page (page_get_self newpage) ;;;
  (if negb (oldsib =? 0)
   then btree_node_set_left oldsib (page_get_self newpage) ;;;
        page_set_dirty oldsib true
   else ret tt) ;;;
  page_set_dirty newpage true ;;;
  page_set_dirty page true.

Definition free_scratchpad_key (sp : insert_scratchpad_t) : M unit :=
  match key_data (sp_key sp) with
  | Some _ => ham_mem_free
  | None => ret tt
  end.

Definition my_insert_split (page : Z) (key : ham_key_t) (rid : Z) (flags : Z)
    (sp : insert_scratchpad_t) : M (ham_status_t * insert_scratchpad_t) :=
  r <- split_move_keys page ;;
  match r with
  | inl st => ret (st, sp)
  | inr s =>
      st <- split_insert_key page (split_newpage s) (split_pivot s) key rid
                             (sp_record sp) flags ;;
      if negb (st =? 0) then ret (st, sp)
      else
        split_link_siblings page (split_newpage s) ;;;
        free_scratchpad_key sp ;;;
        ret (SPLIT, sp_set_pivot (split_pivotkey s) (split_pivotrid s) sp)
  end.

(** *** my_insert_in_page, my_insert_recursive, btree_insert *)

Definition my_insert_in_page (page : Z) (key : ham_key_t) (rid : Z) (flags : Z)
    (sp : insert_scratchpad_t) : M (ham_status_t * insert_scratchpad_t) :=
  maxkeys <- btree_get_maxkeys ;;
  ham_assert (maxkeys >? 1) ;;;
  count <- btree_node_get_count page ;;
  if count <? maxkeys then
    st <- my_insert_nosplit page key rid (sp_record sp) flags ;;
    ret (st, sp)
  else
    leaf <- btree_node_is_leaf page ;;
    if leaf then
      idx <- btree_node_search_by_key page key ;;
      if idx >=? 0 then
        if has_flag flags OVERWRITE then
          st <- my_insert_nosplit page key rid (sp_record sp) flags ;;
          ret (st, sp)
        else ret (HAM_DUPLICATE_KEY, sp)
      else my_insert_split page key rid flags sp
    else my_insert_split page key rid flags sp.

(** [fuel] bounds the depth of the recursion. *)
Fixpoint my_insert_recursive (fuel : nat) (page : Z) (key : ham_key_t) (rid : Z)
    (sp : insert_scratchpad_t) : M (ham_status_t * insert_scratchpad_t) :=
  match fuel with
  | O => fun _ => NoFuel
  | S fuel' =>
      leaf <- btree_node_is_leaf page ;;
      if leaf then my_insert_in_page page key rid 0 sp
      else
        child <- btree_traverse_tree page key ;;
        ham_assert (negb (child =? 0)) ;;;
        r <- my_insert_recursive fuel' child key rid sp ;;
        let st := fst r in
        let sp := snd r in
        if st =? HAM_SUCCESS then ret (st, sp)
        else if st =? HAM_DUPLICATE_KEY then ret (st, sp)
        else if st =? SPLIT then
          my_insert_in_page page (sp_key sp) (sp_rid sp) OVERWRITE sp
        else db_set_error st ;;; ret (st, sp)
  end.

Definition btree_insert (fuel : nat) (key : ham_key_t) (record : ham_record_t)
    (flags : Z) : M ham_status_t :=
  let scratchpad := mk_scratchpad flags record (mk_key 0 None) 0 in
  rootid <- btree_get_rootpage ;;
  ham_assert (negb (rootid =? 0)) ;;;
  root <- db_fetch_page rootid ;;
  r <- my_insert_recursive fuel root key 0 scratchpad ;;
  let st := fst r in
  let scratchpad := snd r in
  if st =? SPLIT then
    newroot <- db_alloc_page PAGE_TYPE_ROOT ;;
    if newroot =? 0 then db_get_error
    else
      page_set_type newroot PAGE_TYPE_ROOT ;;;
      oldroot <- btree_get_rootpage ;;
      btree_node_set_ptr_left newroot oldroot ;;;
      st <- my_insert_nosplit newroot (sp_key scratchpad) (sp_rid scratchpad)
                              (sp_record scratchpad) NOFLUSH ;;
      if negb (st =? 0) then
        free_scratchpad_key scratchpad ;;;
        ret st
      else
        btree_set_rootpage (page_get_self newroot) ;;;
        db_set_dirty true ;;;
        page_set_type root PAGE_TYPE_INDEX ;;;
        free_scratchpad_key scratchpad ;;;
        ret st
  else
    free_scratchpad_key scratchpad ;;;
    ret st.

(** *** Predicates of the statements about the insert *)

(** The events of [split_link_siblings]: [right] is the right sibling of
    the old page before the split, [oldsib] says whether the pager has
    that page. *)
Definition link_events (page newpage right : Z) (oldsib : bool) : list event :=
  [Set_left newpage page; Set_right newpage right; Set_right page newpage]
  ++ (if oldsib then [Set_left right newpage; Set_dirty right] else [])
  ++ [Set_dirty newpage; Set_dirty page].

(** The key of slot [i] of a page. *)
Definition slot_key (p : ham_page_t) (i : Z) : list Z :=
  key_get_key (slot_read (node_entries (page_node p)) i).

(** Invariant 1: the keys of the live slots are strictly increasing. *)
Definition page_sorted (p : ham_page_t) : Prop :=
  forall i j, 0 <= i -> i < j -> j < node_count (page_node p) ->
    compare_keys (slot_key p i) (slot_key p j) < 0.

(** Slot [j] of the page is live and holds the key. *)
Definition page_holds_key (p : ham_page_t) (key : ham_key_t) (j : Z) : Prop :=
  0 <= j < node_count (page_node p) /\
  compare_keys (slot_key p j) (key_bytes key) = 0.

(** The descent of [my_insert_recursive] for [key] goes from [page] to the
    leaf [leaf] in [n] steps. *)
Inductive descends (db : ham_db_t) (key : ham_key_t) : Z -> Z -> nat -> Prop :=
| descends_leaf (page : Z) (p : ham_page_t) :
    db_pages db !! page = Some p ->
    node_is_leaf (page_node p) = true ->
    descends db key page page O
| descends_step (page child leaf : Z) (p : ham_page_t) (n : nat) :
    db_pages db !! page = Some p ->
    node_is_leaf (page_node p) = false ->
    btree_traverse_tree page key db = Ret child db ->
    child <> 0 ->
    descends db key child leaf n ->
    descends db key page leaf (S n).

(** The key is present in the tree: the leaf that the descent from the
    root reaches for it is ordered and holds it. *)
Definition tree_holds_key (db : ham_db_t) (key : ham_key_t) (n : nat) : Prop :=
  exists leaf p j,
    descends db key (btree_rootpage db) leaf n /\
    db_pages db !! leaf = Some p /\
    page_sorted p /\
    page_holds_key p key j.

(** The page [page] has the right sibling [v]. *)
Definition has_right (db : ham_db_t) (page v : Z) : Prop :=
  exists p, db_pages db !! page = Some p /\ node_right (page_node p) = v.

(** The later state has the error, the root page id and the limit of
    the earlier one, and every page of the earlier one. *)
Definition extends (db db' : ham_db_t) : Prop :=
  db_error db' = db_error db /\
  btree_rootpage db' = btree_rootpage db /\
  btree_maxkeys db' = btree_maxkeys db /\
  forall id, is_Some (db_pages db !! id) -> is_Some (db_pages db' !! id).

(** A computation that only ever extends the state. *)
Definition keeps {A} (m : M A) : Prop :=
  forall db a db', m db = Ret a db' -> extends db db'.

(** What a split that returns [SPLIT] leaves behind. *)
Definition split_done (page : Z) (sp sp' : insert_scratchpad_t)
    (db db' : ham_db_t) : Prop :=
  extends db db' /\
  has_right db' page (sp_rid sp') /\
  is_Some (db_pages db' !! sp_rid sp') /\
  sp_record sp' = sp_record sp /\
  sp_flags sp' = sp_flags sp.

(** The keys of the live slots of a page, in slot order. *)
Definition page_keys (db : ham_db_t) (page : Z) : list (list Z) :=
  match db_pages db !! page with
  | Some p =>
      map key_get_key
        (take (Z.to_nat (node_count (page_node p))) (node_entries (page_node p)))
  | None => []
  end.

(** The writes to sibling pointers among the events. *)
Definition pointer_writes (log : list event) : list event :=
  List.filter (fun e => match e with Set_dirty _ => false | _ => true end) log.

(** The order of the four writes in the words of the specification:
    [new.left], [new.right], [old.right.left], [old.right]. *)
Definition spec_link_order (page newpage right : Z) : list event :=
  [Set_left newpage page; Set_right newpage right;
   Set_left right newpage; Set_right page newpage].

End Insert.

End BtreeInsert.

(** * btree_cursor.c *)

Module BtreeCursor.

(** Flags of [ham_cursor_move] ([ham/hamsterdb.h]). *)
Definition HAM_CURSOR_FIRST : Z := 1.
Definition HAM_CURSOR_LAST : Z := 2.
Definition HAM_CURSOR_NEXT : Z := 4.
Definition HAM_CURSOR_PREVIOUS : Z := 8.

(** Flags of a cursor and of [bt_cursor_uncouple] ([btree_cursor.h]). *)
Definition BT_CURSOR_FLAG_COUPLED : Z := 1.
Definition BT_CURSOR_FLAG_UNCOUPLED : Z := 2.
Definition BT_CURSOR_UNCOUPLE_NO_REMOVE : Z := 1.

(** A cursor object.  [c_next] and [c_previous] link the cursors of the
    database; [c_uncoupled_key = None] is a NULL key pointer. *)
Record ham_bt_cursor_t := mk_cursor {
  c_next : Z;
  c_previous : Z;
  c_flags : Z;
  c_dupe_id : Z;
  c_coupled_page : Z;
  c_coupled_index : Z;
  c_uncoupled_key : option ham_key_t;
  c_txn : Z
}.

Definition cursor0 : ham_bt_cursor_t := mk_cursor 0 0 0 0 0 0 None 0.

(** What the transaction manager was asked to do, in program order. *)
Inductive txn_event :=
| Txn_begin (txn : Z)
| Txn_commit (txn : Z)
| Txn_abort (txn : Z).

(** The database object as [btree_cursor.c] sees it, together with the
    collaborators it calls.  [db_heap] holds the allocated cursor objects
    by address, [db_cursors] is the head of the cursor list of the
    database, [db_txn] the active transaction (0: none).

    Modelled from the spec: the allocator behind [ham_mem_alloc], the
    pager and the transaction manager are not among the sources.
    [mem_fresh] lists the addresses the allocator returns next (none left:
    NULL); [pager_errno] is the error the pager leaves when it cannot
    fetch a page; [txn_begin_status] and [txn_commit_status] are the
    statuses of [ham_txn_begin] and [ham_txn_commit]; [txn_log] records
    the calls that reached the transaction manager. *)
Record ham_db_t := mk_db {
  db_pages : gmap Z ham_page_t;
  db_backend : bool;
  btree_rootpage : Z;
  db_txn : Z;
  db_error : ham_status_t;
  db_cursors : Z;
  db_heap : gmap Z ham_bt_cursor_t;
  mem_fresh : list Z;
  pager_errno : ham_status_t;
  txn_begin_status : ham_status_t;
  txn_commit_status : ham_status_t;
  txn_log : list txn_event
}.

Definition set_pages (f : gmap Z ham_page_t -> gmap Z ham_page_t)
    (db : ham_db_t) : ham_db_t :=
  mk_db (f (db_pages db)) (db_backend db) (btree_rootpage db) (db_txn db)
        (db_error db) (db_cursors db) (db_heap db) (mem_fresh db)
        (pager_errno db) (txn_begin_status db) (txn_commit_status db)
        (txn_log db).
Definition set_txn (v : Z) (db : ham_db_t) : ham_db_t :=
  mk_db (db_pages db) (db_backend db) (btree_rootpage db) v (db_error db)
        (db_cursors db) (db_heap db) (mem_fresh db) (pager_errno db)
        (txn_begin_status db) (txn_commit_status db) (txn_log db).
Definition set_error (v : ham_status_t) (db : ham_db_t) : ham_db_t :=
  mk_db (db_pages db) (db_backend db) (btree_rootpage db) (db_txn db) v
        (db_cursors db) (db_heap db) (mem_fresh db) (pager_errno db)
        (txn_begin_status db) (txn_commit_status db) (txn_log db).
Definition set_cursors (v : Z) (db : ham_db_t) : ham_db_t :=
  mk_db (db_pages db) (db_backend db) (btree_rootpage db) (db_txn db)
        (db_error db) v (db_heap db) (mem_fresh db) (pager_errno db)
        (txn_begin_status db) (txn_commit_status db) (txn_log db).
Definition set_heap (f : gmap Z ham_bt_cursor_t -> gmap Z ham_bt_cursor_t)
    (db : ham_db_t) : ham_db_t :=
  mk_db (db_pages db) (db_backend db) (btree_rootpage db) (db_txn db)
        (db_error db) (db_cursors db) (f (db_heap db)) (mem_fresh db)
        (pager_errno db) (txn_begin_status db) (txn_commit_status db)
        (txn_log db).
Definition set_mem_fresh (v : list Z) (db : ham_db_t) : ham_db_t :=
  mk_db (db_pages db) (db_backend db) (btree_rootpage db) (db_txn db)
        (db_error db) (db_cursors db) (db_heap db) v (pager_errno db)
        (txn_begin_status db) (txn_commit_status db) (txn_log db).
Definition set_txn_log (f : list txn_event -> list txn_event)
    (db : ham_db_t) : ham_db_t :=
  mk_db (db_pages db) (db_backend db) (btree_rootpage db) (db_txn db)
        (db_error db) (db_cursors db) (db_heap db) (mem_fresh db)
        (pager_errno db) (txn_begin_status db) (txn_commit_status db)
        (f (txn_log db)).
Local Abbreviation M := (M ham_db_t).

(** *** Cursor objects and pages through their pointers *)

Definition read_cursor {A} (c : Z) (f : ham_bt_cursor_t -> A) : M A :=
  fun db => match db_heap db !! c with
            | Some cu => Ret (f cu) db
            | None => Crash
            end.

Definition write_cursor (c : Z) (f : ham_bt_cursor_t -> ham_bt_cursor_t) : M unit :=
  fun db => match db_heap db !! c with
            | Some cu => Ret tt (set_heap (insert c (f cu)) db)
            | None => Crash
            end.

Definition read_page {A} (page : Z) (f : ham_page_t -> A) : M A :=
  fun db => match db_pages db !! page with
            | Some p => Ret (f p) db
            | None => Crash
            end.

Definition write_page (page : Z) (f : ham_page_t -> ham_page_t) : M unit :=
  fun db => match db_pages db !! page with
            | Some p => Ret tt (set_pages (insert page (f p)) db)
            | None => Crash
            end.

Definition cursor_get_next (c : Z) : M Z := read_cursor c c_next.
Definition cursor_get_previous (c : Z) : M Z := read_cursor c c_previous.
Definition bt_cursor_get_flags (c : Z) : M Z := read_cursor c c_flags.
Definition bt_cursor_get_coupled_page (c : Z) : M Z := read_cursor c c_coupled_page.
Definition bt_cursor_get_coupled_index (c : Z) : M Z := read_cursor c c_coupled_index.
Definition bt_cursor_get_uncoupled_key (c : Z) : M (option ham_key_t) :=
  read_cursor c c_uncoupled_key.

Definition cursor_set_next (c : Z) (v : Z) : M unit :=
  write_cursor c (fun cu => mk_cursor v (c_previous cu) (c_flags cu) (c_dupe_id cu)
    (c_coupled_page cu) (c_coupled_index cu) (c_uncoupled_key cu) (c_txn cu)).
Definition cursor_set_previous (c : Z) (v : Z) : M unit :=
  write_cursor c (fun cu => mk_cursor (c_next cu) v (c_flags cu) (c_dupe_id cu)
    (c_coupled_page cu) (c_coupled_index cu) (c_uncoupled_key cu) (c_txn cu)).
Definition bt_cursor_set_flags (c : Z) (v : Z) : M unit :=
  write_cursor c (fun cu => mk_cursor (c_next cu) (c_previous cu) v (c_dupe_id cu)
    (c_coupled_page cu) (c_coupled_index cu) (c_uncoupled_key cu) (c_txn cu)).
Definition bt_cursor_set_dupe_id (c : Z) (v : Z) : M unit :=
  write_cursor c (fun cu => mk_cursor (c_next cu) (c_previous cu) (c_flags cu) v
    (c_coupled_page cu) (c_coupled_index cu) (c_uncoupled_key cu) (c_txn cu)).
Definition bt_cursor_set_coupled_page (c : Z) (v : Z) : M unit :=
  write_cursor c (fun cu => mk_cursor (c_next cu) (c_previous cu) (c_flags cu)
    (c_dupe_id cu) v (c_coupled_index cu) (c_uncoupled_key cu) (c_txn cu)).
Definition bt_cursor_set_coupled_index (c : Z) (v : Z) : M unit :=
  write_cursor c (fun cu => mk_cursor (c_next cu) (c_previous cu) (c_flags cu)
    (c_dupe_id cu) (c_coupled_page cu) v (c_uncoupled_key cu) (c_txn cu)).
Definition bt_cursor_set_uncoupled_key (c : Z) (v : option ham_key_t) : M unit :=
  write_cursor c (fun cu => mk_cursor (c_next cu) (c_previous cu) (c_flags cu)
    (c_dupe_id cu) (c_coupled_page cu) (c_coupled_index cu) v (c_txn cu)).

(** [bt_cursor_is_nil] ([btree_cursor.h]): neither coupled nor uncoupled. *)
Definition is_nil_flags (flags : Z) : bool :=
  negb (has_flag flags BT_CURSOR_FLAG_COUPLED)
  && negb (has_flag flags BT_CURSOR_FLAG_UNCOUPLED).
Definition bt_cursor_is_nil (c : Z) : M bool :=
  flags <- bt_cursor_get_flags c ;;
  ret (is_nil_flags flags).

Definition db_get_error : M ham_status_t := gets db_error.
(** [db_set_error] has the value of the error it stores. *)
Definition db_set_error (e : ham_status_t) : M ham_status_t :=
  modify (set_error e) ;;; ret e.
Definition db_get_txn : M Z := gets db_txn.
Definition db_get_backend : M bool := gets db_backend.
Definition btree_get_rootpage : M Z := gets btree_rootpage.
Definition db_get_cursors : M Z := gets db_cursors.
Definition db_set_cursors (c : Z) : M unit := modify (set_cursors c).

Definition btree_node_get_count (page : Z) : M Z :=
  read_page page (fun p => node_count (page_node p)).
Definition btree_node_get_left (page : Z) : M Z :=
  read_page page (fun p => node_left (page_node p)).
Definition btree_node_get_right (page : Z) : M Z :=
  read_page page (fun p => node_right (page_node p)).
Definition btree_node_get_ptr_left (page : Z) : M Z :=
  read_page page (fun p => node_ptr_left (page_node p)).
Definition btree_node_get_key (page : Z) (i : Z) : M int_key_t :=
  read_page page (fun p => slot_read (node_entries (page_node p)) i).

Definition set_page_cursors (f : list Z -> list Z) (p : ham_page_t) : ham_page_t :=
  mk_page (page_type_of p) (page_dirty p) (page_node p) (f (page_cursors p))
          (page_refcount p).
Definition set_page_refcount (f : Z -> Z) (p : ham_page_t) : ham_page_t :=
  mk_page (page_type_of p) (page_dirty p) (page_node p) (page_cursors p)
          (f (page_refcount p)).

(** Modelled from the spec: [page_add_cursor] and [page_remove_cursor]
    (page.c) keep the list of the cursors coupled to a page. *)
Definition page_add_cursor (page : Z) (c : Z) : M unit :=
  write_page page (set_page_cursors (cons c)).
Definition page_remove_cursor (page : Z) (c : Z) : M unit :=
  write_page page (set_page_cursors (filter (fun x => x <> c))).

Definition page_add_ref (page : Z) : M unit :=
  write_page page (set_page_refcount (fun n => n + 1)).
Definition page_release_ref (page : Z) : M unit :=
  write_page page (set_page_refcount (fun n => n - 1)).

(** Modelled from the spec: [db_fetch_page] (db.c).  The page pointer, or
    NULL and the pager's error when the pager has no page of that id. *)
Definition db_fetch_page (id : Z) : M Z :=
  fun db => match db_pages db !! id with
            | Some _ => Ret id db
            | None =>
                Ret 0 (if pager_errno db =? 0 then db else set_error (pager_errno db) db)
            end.

(** [ham_mem_alloc]: the next address of the allocator, or NULL. *)
Definition ham_mem_alloc : M Z :=
  fun db => match mem_fresh db with
            | a :: rest => Ret a (set_mem_fresh rest db)
            | [] => Ret 0 db
            end.

(** [ham_mem_free] of a cursor object. *)
Definition ham_mem_free_cursor (c : Z) : M unit :=
  fun db => match db_heap db !! c with
            | Some _ => Ret tt (set_heap (delete c) db)
            | None => Crash
            end.

(** [ham_mem_free] of a key or of its data: keys are values in this model. *)
Definition ham_mem_free_key : M unit := ret tt.

(** Modelled from the spec: [ham_txn_begin], [ham_txn_commit] and
    [ham_txn_abort] (txn.c).  A transaction that begins becomes the active
    transaction of the database; commit and abort end it. *)
Definition ham_txn_begin : M (ham_status_t * Z) :=
  fun db =>
    if negb (txn_begin_status db =? 0) then Ret (txn_begin_status db, 0) db
    else
      let txn := Z.of_nat (length (txn_log db)) + 1 in
      Ret (HAM_SUCCESS, txn)
          (set_txn txn (set_txn_log (fun l => l ++ [Txn_begin txn]) db)).

Definition ham_txn_commit (txn : Z) : M ham_status_t :=
  fun db =>
    Ret (txn_commit_status db)
        (set_txn 0 (set_txn_log (fun l => l ++ [Txn_commit txn]) db)).

Definition ham_txn_abort (txn : Z) : M ham_status_t :=
  fun db =>
    Ret HAM_SUCCESS (set_txn 0 (set_txn_log (fun l => l ++ [Txn_abort txn]) db)).

(** [local_txn = db_get_txn(db) ? HAM_FALSE : HAM_TRUE] and the
    [ham_txn_begin] under [if (local_txn)]: the status of the begin and the
    local transaction, or status 0 and no transaction. *)
Definition begin_local (local_txn : bool) : M (ham_status_t * Z) :=
  if local_txn then ham_txn_begin else ret (HAM_SUCCESS, 0).
Definition abort_local (local_txn : bool) (txn : Z) : M unit :=
  if local_txn then ham_txn_abort txn ;;; ret tt else ret tt.

(** Functions of other files that the cursor calls; they are arbitrary
    state transformers here. *)
Class Collaborators := {
  btree_find_cursor : Z -> ham_key_t -> Z -> M ham_status_t;
  btree_erase_cursor : option ham_key_t -> Z -> Z -> M ham_status_t;
  util_read_key : int_key_t -> ham_key_t -> M (ham_status_t * ham_key_t);
  util_read_record : Z -> Z -> ham_record_t -> M (ham_status_t * ham_record_t)
}.

Section Cursor.
Context {CO : Collaborators} {NL : NodeLayout}.

Definition btree_node_is_leaf (page : Z) : M bool :=
  read_page page (fun p => node_is_leaf (page_node p)).

(** Modelled from the spec: [util_copy_key] and [util_copy_key_int2pub]
    (util.c) copy a key into a buffer of its own; on an allocation failure
    they leave [HAM_OUT_OF_MEMORY] in the database and return NULL. *)
Definition util_copy_key (src : option ham_key_t) : M (option ham_key_t) :=
  match src with
  | None => crash
  | Some k =>
      a <- ham_mem_alloc ;;
      if a =? 0 then db_set_error HAM_OUT_OF_MEMORY ;;; ret None
      else ret (Some (mk_key (key_size k) (Some (default [] (key_data k)))))
  end.

Definition util_copy_key_int2pub (entry : int_key_t) : M (option ham_key_t) :=
  a <- ham_mem_alloc ;;
  if a =? 0 then db_set_error HAM_OUT_OF_MEMORY ;;; ret None
  else ret (Some (mk_key (key_get_size entry) (Some (key_get_key entry)))).

(** *** bt_cursor_set_to_nil *)

Definition bt_cursor_set_to_nil (c : Z) : M ham_status_t :=
  flags <- bt_cursor_get_flags c ;;
  (if has_flag flags BT_CURSOR_FLAG_UNCOUPLED then
     ham_mem_free_key ;;;
     bt_cursor_set_uncoupled_key c None ;;;
     flags <- bt_cursor_get_flags c ;;
     bt_cursor_set_flags c (Z.land flags (Z.lnot BT_CURSOR_FLAG_UNCOUPLED))
   else if has_flag flags BT_CURSOR_FLAG_COUPLED then
     page <- bt_cursor_get_coupled_page c ;;
     page_remove_cursor page c ;;;
     flags <- bt_cursor_get_flags c ;;
     bt_cursor_set_flags c (Z.land flags (Z.lnot BT_CURSOR_FLAG_COUPLED))
   else ret tt) ;;;
  bt_cursor_set_dupe_id c 0 ;;;
  ret 0.

(** "couple this cursor to the ... key in this page". *)
Definition couple_to (c page index : Z) : M unit :=
  page_add_cursor page c ;;;
  bt_cursor_set_coupled_page c page ;;;
  bt_cursor_set_coupled_index c index ;;;
  flags <- bt_cursor_get_flags c ;;
  bt_cursor_set_flags c (Z.lor flags BT_CURSOR_FLAG_COUPLED) ;;;
  bt_cursor_set_dupe_id c 0.

(** *** my_move_first, my_move_last *)

(** The [while (1)] of [my_move_first]: [inl st] is a [return (st)],
    [inr page] leaves the loop at a leaf.  [fuel] bounds the descent. *)
Fixpoint first_descend (fuel : nat) (page : Z) : M (ham_status_t + Z) :=
  match fuel with
  | O => fun _ => NoFuel
  | S fuel' =>
      count <- btree_node_get_count page ;;
      if count =? 0 then (st <- db_set_error HAM_KEY_NOT_FOUND ;; ret (inl st))
      else
        leaf <- btree_node_is_leaf page ;;
        if leaf then ret (inr page)
        else
          left <- btree_node_get_ptr_left page ;;
          page' <- db_fetch_page left ;;
          if page' =? 0 then
            e <- db_get_error ;;
            (if e =? 0 then db_set_error HAM_KEY_NOT_FOUND ;;; ret tt else ret tt) ;;;
            e <- db_get_error ;;
            ret (inl e)
          else first_descend fuel' page'
  end.

Definition my_move_first (fuel : nat) (c : Z) (flags : Z) : M ham_status_t :=
  st <- bt_cursor_set_to_nil c ;;
  if negb (st =? 0) then ret st
  else
    db_set_error 0 ;;;
    root <- btree_get_rootpage ;;
    if root =? 0 then db_set_error HAM_KEY_NOT_FOUND
    else
      page <- db_fetch_page root ;;
      if page =? 0 then db_get_error
      else
        r <- first_descend fuel page ;;
        match r with
        | inl st => ret st
        | inr page => couple_to c page 0 ;;; ret 0
        end.

Fixpoint last_descend (fuel : nat) (page : Z) : M (ham_status_t + Z) :=
  match fuel with
  | O => fun _ => NoFuel
  | S fuel' =>
      count <- btree_node_get_count page ;;
      if count =? 0 then (st <- db_set_error HAM_KEY_NOT_FOUND ;; ret (inl st))
      else
        leaf <- btree_node_is_leaf page ;;
        if leaf then ret (inr page)
        else
          key <- btree_node_get_key page (count - 1) ;;
          page' <- db_fetch_page (key_get_ptr key) ;;
          if page' =? 0 then
            e <- db_get_error ;;
            (if e =? 0 then db_set_error HAM_KEY_NOT_FOUND ;;; ret tt else ret tt) ;;;
            e <- db_get_error ;;
            ret (inl e)
          else last_descend fuel' page'
  end.

Definition my_move_last (fuel : nat) (c : Z) (flags : Z) : M ham_status_t :=
  st <- bt_cursor_set_to_nil c ;;
  if negb (st =? 0) then ret st
  else
    db_set_error 0 ;;;
    root <- btree_get_rootpage ;;
    if root =? 0 then db_set_error HAM_KEY_NOT_FOUND
    else
      page <- db_fetch_page root ;;
      if page =? 0 then db_get_error
      else
        r <- last_descend fuel page ;;
        match r with
        | inl st => ret st
        | inr page =>
            count <- btree_node_get_count page ;;
            couple_to c page (count - 1) ;;;
            ret 0
        end.

(** *** bt_cursor_find, bt_cursor_couple, bt_cursor_uncouple *)

Definition bt_cursor_find (c : Z) (key : option ham_key_t) (flags : Z) : M ham_status_t :=
  be <- db_get_backend ;;
  txn0 <- db_get_txn ;;
  let local_txn := txn0 =? 0 in
  if negb be then ret HAM_NOT_INITIALIZED
  else
    match key with
    | None => ret HAM_INV_PARAMETER
    | Some k =>
        b <- begin_local local_txn ;;
        if negb (fst b =? 0) then ret (fst b)
        else
          let txn := snd b in
          st <- bt_cursor_set_to_nil c ;;
          if negb (st =? 0) then abort_local local_txn txn ;;; ret st
          else
            st <- btree_find_cursor c k flags ;;
            if negb (st =? 0) then abort_local local_txn txn ;;; ret st
            else if local_txn then ham_txn_commit txn
            else ret 0
    end.

Definition bt_cursor_couple (c : Z) : M ham_status_t :=
  txn0 <- db_get_txn ;;
  let local_txn := txn0 =? 0 in
  flags <- bt_cursor_get_flags c ;;
  ham_assert (has_flag flags BT_CURSOR_FLAG_UNCOUPLED) ;;;
  b <- begin_local local_txn ;;
  if negb (fst b =? 0) then ret (fst b)
  else
    let txn := snd b in
    ukey <- bt_cursor_get_uncoupled_key c ;;
    key <- util_copy_key ukey ;;
    match key with
    | None => abort_local local_txn txn ;;; db_get_error
    | Some k =>
        st <- bt_cursor_find c (Some k) 0 ;;
        ham_mem_free_key ;;;
        if local_txn then
          if negb (st =? 0) then ham_txn_abort txn ;;; ret st
          else ham_txn_commit txn
        else ret st
    end.

Definition bt_cursor_uncouple (c : Z) (flags : Z) : M ham_status_t :=
  txn0 <- db_get_txn ;;
  let local_txn := txn0 =? 0 in
  cflags <- bt_cursor_get_flags c ;;
  if has_flag cflags BT_CURSOR_FLAG_UNCOUPLED then ret 0
  else if negb (has_flag cflags BT_CURSOR_FLAG_COUPLED) then ret 0
  else
    page <- bt_cursor_get_coupled_page c ;;
    ham_assert (negb (page =? 0)) ;;;
    b <- begin_local local_txn ;;
    if negb (fst b =? 0) then ret (fst b)
    else
      let txn := snd b in
      leaf <- btree_node_is_leaf page ;;
      ham_assert leaf ;;;
      index <- bt_cursor_get_coupled_index c ;;
      entry <- btree_node_get_key page index ;;
      a <- ham_mem_alloc ;;
      if a =? 0 then abort_local local_txn txn ;;; db_set_error HAM_OUT_OF_MEMORY
      else
        key <- util_copy_key_int2pub entry ;;
        match key with
        | None => abort_local local_txn txn ;;; db_get_error
        | Some k =>
            (if negb (has_flag flags BT_CURSOR_UNCOUPLE_NO_REMOVE)
             then page_remove_cursor page c
             else ret tt) ;;;
            cflags <- bt_cursor_get_flags c ;;
            bt_cursor_set_flags c (Z.land cflags (Z.lnot BT_CURSOR_FLAG_COUPLED)) ;;;
            cflags <- bt_cursor_get_flags c ;;
            bt_cursor_set_flags c (Z.lor cflags BT_CURSOR_FLAG_UNCOUPLED) ;;;
            bt_cursor_set_uncoupled_key c (Some k) ;;;
            if local_txn then ham_txn_commit txn else ret 0
        end.

(** *** my_move_next, my_move_previous *)

Definition my_move_next (c : Z) (flags : Z) : M ham_status_t :=
  cflags <- bt_cursor_get_flags c ;;
  pre <- (if has_flag cflags BT_CURSOR_FLAG_UNCOUPLED then bt_cursor_couple c
          else if negb (has_flag cflags BT_CURSOR_FLAG_COUPLED)
          then ret HAM_CURSOR_IS_NIL
          else ret 0) ;;
  if negb (pre =? 0) then ret pre
  else
    db_set_error 0 ;;;
    page <- bt_cursor_get_coupled_page c ;;
    index <- bt_cursor_get_coupled_index c ;;
    count <- btree_node_get_count page ;;
    if index + 1 <? count then
      bt_cursor_set_coupled_index c (index + 1) ;;;
      bt_cursor_set_dupe_id c 0 ;;;
      ret 0
    else
      right <- btree_node_get_right page ;;
      if right =? 0 then db_set_error HAM_KEY_NOT_FOUND
      else
        page_remove_cursor page c ;;;
        cflags <- bt_cursor_get_flags c ;;
        bt_cursor_set_flags c (Z.land cflags (Z.lnot BT_CURSOR_FLAG_COUPLED)) ;;;
        page' <- db_fetch_page right ;;
        if page' =? 0 then db_get_error
        else couple_to c page' 0 ;;; ret 0.

Definition my_move_previous (c : Z) (flags : Z) : M ham_status_t :=
  cflags <- bt_cursor_get_flags c ;;
  pre <- (if has_flag cflags BT_CURSOR_FLAG_UNCOUPLED then bt_cursor_couple c
          else if negb (has_flag cflags BT_CURSOR_FLAG_COUPLED)
          then ret HAM_CURSOR_IS_NIL
          else ret 0) ;;
  if negb (pre =? 0) then ret pre
  else
    db_set_error 0 ;;;
    page <- bt_cursor_get_coupled_page c ;;
    index <- bt_cursor_get_coupled_index c ;;
    if negb (index =? 0) then
      bt_cursor_set_coupled_index c (index - 1) ;;;
      bt_cursor_set_dupe_id c 0 ;;;
      bt_cursor_set_dupe_id c 0 ;;;
      ret 0
    else
      left <- btree_node_get_left page ;;
      if left =? 0 then db_set_error HAM_KEY_NOT_FOUND
      else
        page_remove_cursor page c ;;;
        cflags <- bt_cursor_get_flags c ;;
        bt_cursor_set_flags c (Z.land cflags (Z.lnot BT_CURSOR_FLAG_COUPLED)) ;;;
        page' <- db_fetch_page left ;;
        if page' =? 0 then db_get_error
        else
          count <- btree_node_get_count page' ;;
          couple_to c page' (count - 1) ;;;
          bt_cursor_set_dupe_id c 0 ;;;
          ret 0.

(** *** bt_cursor_create, bt_cursor_close *)

(** The status and the new cursor ([*cu]). *)
Definition bt_cursor_create (txn : Z) (flags : Z) : M (ham_status_t * Z) :=
  c <- ham_mem_alloc ;;
  if c =? 0 then (st <- db_set_error HAM_OUT_OF_MEMORY ;; ret (st, 0))
  else
    modify (set_heap (insert c (mk_cursor 0 0 0 0 0 0 None txn))) ;;;
    head <- db_get_cursors ;;
    cursor_set_next c head ;;;
    head <- db_get_cursors ;;
    (if negb (head =? 0) then cursor_set_previous head c else ret tt) ;;;
    db_set_cursors c ;;;
    ret (0, c).

Definition bt_cursor_close (c : Z) : M ham_status_t :=
  p <- cursor_get_previous c ;;
  n <- cursor_get_next c ;;
  (if negb (p =? 0) then cursor_set_next p n else db_set_cursors n) ;;;
  (if negb (n =? 0) then cursor_set_previous n p else db_set_cursors 0) ;;;
  bt_cursor_set_to_nil c ;;;
  ham_mem_free_cursor c ;;;
  ret 0.

(** *** bt_cursor_move *)

(** The rewrite of the direction for a NIL cursor. *)
Definition seed_direction (nil : bool) (flags : Z) : Z :=
  if nil then
    if has_flag flags HAM_CURSOR_NEXT then
      Z.lor (Z.land flags (Z.lnot HAM_CURSOR_NEXT)) HAM_CURSOR_FIRST
    else if has_flag flags HAM_CURSOR_PREVIOUS then
      Z.lor (Z.land flags (Z.lnot HAM_CURSOR_PREVIOUS)) HAM_CURSOR_LAST
    else flags
  else flags.

(** The status and what the caller finds in [*key] and [*record]. *)
Definition move_result : Type :=
  ham_status_t * option ham_key_t * option ham_record_t.

(** "during util_read_key and util_read_record ...": the part of
    [bt_cursor_move] after the move itself. *)
Definition move_read (c : Z) (key : option ham_key_t) (record : option ham_record_t)
    (local_txn : bool) (txn : Z) : M move_result :=
  cflags <- bt_cursor_get_flags c ;;
  ham_assert (has_flag cflags BT_CURSOR_FLAG_COUPLED) ;;;
  page <- bt_cursor_get_coupled_page c ;;
  page_add_ref page ;;;
  leaf <- btree_node_is_leaf page ;;
  ham_assert leaf ;;;
  index <- bt_cursor_get_coupled_index c ;;
  entry <- btree_node_get_key page index ;;
  rk <- match key with
        | Some k => r <- util_read_key entry k ;; ret (fst r, Some (snd r))
        | None => ret (0, None)
        end ;;
  if negb (fst rk =? 0) then
    page_release_ref page ;;;
    abort_local local_txn txn ;;;
    ret (fst rk, snd rk, record)
  else
    rr <- match record with
          | Some r =>
              x <- util_read_record (key_get_flags entry) (key_get_ptr entry) r ;;
              ret (fst x, Some (snd x))
          | None => ret (0, None)
          end ;;
    if negb (fst rr =? 0) then
      page_release_ref page ;;;
      abort_local local_txn txn ;;;
      ret (fst rr, snd rk, snd rr)
    else
      page_release_ref page ;;;
      if local_txn then
        st <- ham_txn_commit txn ;;
        ret (st, snd rk, snd rr)
      else ret (0, snd rk, snd rr).

Definition bt_cursor_move (fuel : nat) (c : Z) (key : option ham_key_t)
    (record : option ham_record_t) (flags : Z) : M move_result :=
  be <- db_get_backend ;;
  txn0 <- db_get_txn ;;
  let local_txn := txn0 =? 0 in
  if negb be then ret (HAM_NOT_INITIALIZED, key, record)
  else
    b <- begin_local local_txn ;;
    if negb (fst b =? 0) then ret (fst b, key, record)
    else
      let txn := snd b in
      nil <- bt_cursor_is_nil c ;;
      let flags := seed_direction nil flags in
      let finish (st : ham_status_t) : M move_result :=
        if negb (st =? 0) then
          abort_local local_txn txn ;;;
          ret (st, key, record)
        else move_read c key record local_txn txn in
      if has_flag flags HAM_CURSOR_FIRST then
        st <- my_move_first fuel c flags ;; finish st
      else if has_flag flags HAM_CURSOR_LAST then
        st <- my_move_last fuel c flags ;; finish st
      else if has_flag flags HAM_CURSOR_NEXT then
        st <- my_move_next c flags ;; finish st
      else if has_flag flags HAM_CURSOR_PREVIOUS then
        st <- my_move_previous c flags ;; finish st
      else
        nil <- bt_cursor_is_nil c ;;
        if nil then
          abort_local local_txn txn ;;;
          match key, record with
          | None, None => ret (0, key, record)
          | _, _ => ret (HAM_CURSOR_IS_NIL, key, record)
          end
        else
          cflags <- bt_cursor_get_flags c ;;
          if has_flag cflags BT_CURSOR_FLAG_UNCOUPLED then
            st <- bt_cursor_couple c ;; finish st
          else finish 0.

(** *** bt_cursor_erase *)

Definition bt_cursor_erase (c : Z) (flags : Z) : M ham_status_t :=
  be <- db_get_backend ;;
  txn0 <- db_get_txn ;;
  let local_txn := txn0 =? 0 in
  if negb be then ret HAM_NOT_INITIALIZED
  else
    b <- begin_local local_txn ;;
    if negb (fst b =? 0) then ret (fst b)
    else
      let txn := snd b in
      cflags <- bt_cursor_get_flags c ;;
      pre <- (if has_flag cflags BT_CURSOR_FLAG_COUPLED then bt_cursor_uncouple c 0
              else if negb (has_flag cflags BT_CURSOR_FLAG_UNCOUPLED)
              then ret HAM_CURSOR_IS_NIL
              else ret 0) ;;
      if negb (pre =? 0) then ret pre
      else
        ukey <- bt_cursor_get_uncoupled_key c ;;
        st <- btree_erase_cursor ukey c flags ;;
        if negb (st =? 0) then abort_local local_txn txn ;;; ret st
        else
          st <- bt_cursor_set_to_nil c ;;
          if negb (st =? 0) then ret st
          else if local_txn then ham_txn_commit txn
          else ret 0.

(** The cursors reachable from [c] through the [next] links, at most
    [fuel] of them. *)
Fixpoint cursor_chain (fuel : nat) (heap : gmap Z ham_bt_cursor_t) (c : Z) : list Z :=
  match fuel with
  | O => []
  | S fuel' =>
      if c =? 0 then []
      else match heap !! c with
           | Some cu => c :: cursor_chain fuel' heap (c_next cu)
           | None => [c]
           end
  end.

(** The cursor list of the database, from its head. *)
Definition db_cursor_list (db : ham_db_t) : list Z :=
  cursor_chain (S (size (db_heap db))) (db_heap db) (db_cursors db).

(** *** Predicates of the statements about the cursors *)

(** The mode of a cursor is well formed: not coupled and uncoupled at
    once, and a coupled cursor points to a page of the pager. *)
Definition cursor_mode_ok (db : ham_db_t) (cu : ham_bt_cursor_t) : Prop :=
  (has_flag (c_flags cu) BT_CURSOR_FLAG_UNCOUPLED = true ->
   has_flag (c_flags cu) BT_CURSOR_FLAG_COUPLED = false) /\
  (has_flag (c_flags cu) BT_CURSOR_FLAG_UNCOUPLED = false ->
   has_flag (c_flags cu) BT_CURSOR_FLAG_COUPLED = true ->
   is_Some (db_pages db !! c_coupled_page cu)).

(** The tree has no root page, or its root node holds no entry. *)
Definition tree_is_empty (db : ham_db_t) : Prop :=
  btree_rootpage db = 0 \/
  exists p, db_pages db !! btree_rootpage db = Some p /\
            node_count (page_node p) = 0.

(** What [bt_cursor_set_to_nil] and the moves keep of a state. *)
Definition same_tree (db db' : ham_db_t) : Prop :=
  btree_rootpage db' = btree_rootpage db /\
  db_txn db' = db_txn db /\
  txn_log db' = txn_log db /\
  forall id p, db_pages db !! id = Some p ->
    exists p', db_pages db' !! id = Some p' /\ page_node p' = page_node p.

(** The transaction events of a move that has no direction, on a NIL
    cursor: none under an outer transaction, else a begin and its abort. *)
Definition nil_move_log (db : ham_db_t) : list txn_event :=
  if db_txn db =? 0
  then txn_log db ++ [Txn_begin (Z.of_nat (length (txn_log db)) + 1);
                      Txn_abort (Z.of_nat (length (txn_log db)) + 1)]
  else txn_log db.

End Cursor.

End BtreeCursor.

(** * Concrete databases *)

Module Examples.

(** Keys compared byte by byte, a shorter key before its extensions. *)
Fixpoint lex_compare (a b : list Z) : Z :=
  match a, b with
  | [], [] => 0
  | [], _ :: _ => -1
  | _ :: _, [] => 1
  | x :: a', y :: b' =>
      if x <? y then -1 else if y <? x then 1 else lex_compare a' b'
  end.

Definition lex_comparator : Comparator := {| compare_keys := lex_compare |}.

(** A node without a left pointer is a leaf. *)
Definition ptr_left_layout : NodeLayout :=
  {| node_is_leaf := fun nd => node_ptr_left nd =? 0;
     node_is_leaf_count := fun _ _ => eq_refl;
     node_is_leaf_entries := fun _ _ => eq_refl |}.

(** Collaborators that find nothing and read nothing. *)
Definition idle_collaborators : BtreeCursor.Collaborators :=
  {| BtreeCursor.btree_find_cursor := fun _ _ _ => ret HAM_KEY_NOT_FOUND;
     BtreeCursor.btree_erase_cursor := fun _ _ _ => ret HAM_KEY_NOT_FOUND;
     BtreeCursor.util_read_key := fun _ k => ret (HAM_SUCCESS, k);
     BtreeCursor.util_read_record := fun _ _ r => ret (HAM_SUCCESS, r) |}.

(** The state of a run, or a given state when there is none. *)
Definition state_of {S A} (r : run S A) (otherwise : S) : S :=
  match r with
  | Ret _ s => s
  | _ => otherwise
  end.

(** *** Databases of btree_insert.c *)

Definition slot_of (k : Z) : int_key_t := mk_int_key [k] 1 KEY_BLOB_SIZE_EMPTY 0.

Definition leaf_page (ty : page_type) (keys : list Z) (left right : Z) : ham_page_t :=
  mk_page ty false
    (mk_node (Z.of_nat (length keys)) left right 0 (map slot_of keys)) [] 0.

Definition key_of (k : Z) : ham_key_t := mk_key 1 (Some [k]).
Definition empty_record : ham_record_t := mk_record 0 [].

(** A tree of one page: the root, page 1, is a leaf and is full
    ([maxkeys] is 4); the pager can allocate pages 2 and 3. *)
Definition insert_db_full : BtreeInsert.ham_db_t :=
  BtreeInsert.mk_db
    {[ 1 := leaf_page PAGE_TYPE_ROOT [10; 20; 30; 40] 0 0 ]}
    1 4 false 0 ∅ [2; 3] [] 4 [].

(** [insert_db_full] after the first step of [my_insert_split] on its
    root: page 1 keeps [10; 20], the new page 2 holds [30; 40], the pivot
    is slot 2 of page 1, the key 30. *)
Definition insert_db_halved : BtreeInsert.ham_db_t :=
  BtreeInsert.mk_db
    {[ 1 := mk_page PAGE_TYPE_ROOT false
              (mk_node 2 0 0 0 (map slot_of [10; 20; 30; 40])) [] 0;
       2 := mk_page PAGE_TYPE_INDEX false
              (mk_node 2 0 0 0 (map slot_of [30; 40])) [] 0 ]}
    1 4 false 0 ∅ [3] [] 3 [].

(** An empty tree: the root, page 1, is a leaf without entries. *)
Definition insert_db_empty : BtreeInsert.ham_db_t :=
  BtreeInsert.mk_db {[ 1 := fresh_page PAGE_TYPE_ROOT ]}
    1 4 false 0 ∅ [2; 3; 4; 5] [] 4 [].

Fixpoint insert_keys (keys : list Z) : M BtreeInsert.ham_db_t unit :=
  match keys with
  | [] => ret tt
  | k :: keys' =>
      BtreeInsert.btree_insert (CMP := lex_comparator) (NL := ptr_left_layout)
        4 (key_of k) empty_record 0 ;;;
      insert_keys keys'
  end.

(** [insert_db_empty] after the inserts of 10, 20, 30, 40 and 50: the
    root, page 3, is an internal node with the left pointer 1 and the key
    30 for page 2; page 1 holds 10 and 20, page 2 holds 30, 40 and 50. *)
Definition insert_db_two_levels : BtreeInsert.ham_db_t :=
  BtreeInsert.mk_db
    {[ 1 := mk_page PAGE_TYPE_INDEX true
              (mk_node 2 0 2 0 (map slot_of [10; 20; 30; 40])) [] 0;
       2 := mk_page PAGE_TYPE_INDEX true
              (mk_node 3 1 0 0 (map slot_of [30; 40; 50])) [] 0;
       3 := mk_page PAGE_TYPE_ROOT true
              (mk_node 1 0 0 1 [mk_int_key [30] 1 0 2]) [] 0 ]}
    3 4 true 0 ∅ [4; 5] [] 4
    [BtreeInsert.Set_dirty 1; BtreeInsert.Set_dirty 1; BtreeInsert.Set_dirty 1;
     BtreeInsert.Set_dirty 1; BtreeInsert.Set_dirty 2; BtreeInsert.Set_left 2 1;
     BtreeInsert.Set_right 2 0; BtreeInsert.Set_right 1 2; BtreeInsert.Set_dirty 2;
     BtreeInsert.Set_dirty 1; BtreeInsert.Set_dirty 3].

(** A record of two bytes. *)
Definition record_xy : ham_record_t := mk_record 2 [120; 121].

(** [insert_db_full] after [my_insert_recursive] on its root for the key
    50: the root was split, page 2 is its new right sibling and holds
    [30; 40; 50]. *)
Definition insert_db_root_split : BtreeInsert.ham_db_t :=
  BtreeInsert.mk_db
    {[ 1 := mk_page PAGE_TYPE_ROOT true
              (mk_node 2 0 2 0 (map slot_of [10; 20; 30; 40])) [] 0;
       2 := mk_page PAGE_TYPE_INDEX true
              (mk_node 3 1 0 0 (map slot_of [30; 40; 50])) [] 0 ]}
    1 4 false 0 ∅ [3] [] 3
    [BtreeInsert.Set_dirty 2; BtreeInsert.Set_left 2 1; BtreeInsert.Set_right 2 0;
     BtreeInsert.Set_right 1 2; BtreeInsert.Set_dirty 2; BtreeInsert.Set_dirty 1].

(** Three leaves in a row, 1 - 3 - 4 would be the chain after page 2 is
    linked in: page 1 has the right sibling 3, page 2 is new. *)
Definition insert_db_chain : BtreeInsert.ham_db_t :=
  BtreeInsert.mk_db
    {[ 1 := leaf_page PAGE_TYPE_INDEX [10; 20] 0 3;
       2 := leaf_page PAGE_TYPE_INDEX [30; 40] 0 0;
       3 := leaf_page PAGE_TYPE_INDEX [50; 60] 1 0 ]}
    1 4 false 0 ∅ [5; 6] [] 4 [].

(** A database without pages, cursors or transaction; the allocator has
    three addresses to give. *)
Definition cursor_db0 : BtreeCursor.ham_db_t :=
  BtreeCursor.mk_db ∅ true 0 0 0 0 ∅ [100; 200; 300] 0 0 0 [].

(** [cursor_db0] after two calls of [bt_cursor_create]: the cursor at 200
    is the head of the cursor list, the cursor at 100 its tail. *)
Definition cursor_db2 : BtreeCursor.ham_db_t :=
  state_of ((BtreeCursor.bt_cursor_create 0 0 ;;;
             BtreeCursor.bt_cursor_create 0 0) cursor_db0) cursor_db0.

(** [cursor_db0] after one call of [bt_cursor_create]: one NIL cursor. *)
Definition cursor_db1 : BtreeCursor.ham_db_t :=
  state_of (BtreeCursor.bt_cursor_create 0 0 cursor_db0) cursor_db0.

(** One NIL cursor at 100 over a tree whose root page, page 1, holds no
    entry. *)
Definition cursor_db_empty_root : BtreeCursor.ham_db_t :=
  BtreeCursor.mk_db {[ 1 := fresh_page PAGE_TYPE_ROOT ]} true 1 0 0 100
    {[ 100 := BtreeCursor.cursor0 ]} [200; 300] 0 0 0 [].

End Examples.

(** * Proofs *)

(** ** Flag bits *)

Lemma land_pow2 (f k : Z) :
  0 <= k -> Z.land f (2 ^ k) = if Z.testbit f k then 2 ^ k else 0.
Proof.
  intros Hk. apply Z.bits_inj'. intros n Hn.
  rewrite Z.land_spec, Z.pow2_bits_eqb by lia.
  destruct (Z.eqb_spec k n) as [->|Hne].
  - destruct (Z.testbit f n); simpl.
    + rewrite Z.pow2_bits_eqb by lia. now rewrite Z.eqb_refl.
    + now rewrite Z.bits_0.
  - rewrite andb_false_r. destruct (Z.testbit f k).
    + rewrite Z.pow2_bits_eqb by lia. symmetry. now apply Z.eqb_neq.
    + now rewrite Z.bits_0.
Qed.

Lemma has_flag_testbit (f k : Z) :
  0 <= k -> has_flag f (2 ^ k) = Z.testbit f k.
Proof.
  intros Hk. unfold has_flag. rewrite land_pow2 by lia.
  destruct (Z.testbit f k); simpl; [|reflexivity].
  destruct (Z.eqb_spec (2 ^ k) 0) as [E|E]; [|reflexivity].
  pose proof (Z.pow_pos_nonneg 2 k). lia.
Qed.

Lemma has_flag_set (f b k : Z) :
  0 <= k -> b = 2 ^ k -> has_flag (Z.lor f b) b = true.
Proof.
  intros Hk ->. rewrite has_flag_testbit, Z.lor_spec, Z.pow2_bits_eqb by lia.
  rewrite Z.eqb_refl. apply orb_true_r.
Qed.

Lemma has_flag_cleared (f b k : Z) :
  0 <= k -> b = 2 ^ k -> has_flag (Z.land f (Z.lnot b)) b = false.
Proof.
  intros Hk ->.
  rewrite has_flag_testbit, Z.land_spec, Z.lnot_spec, Z.pow2_bits_eqb by lia.
  rewrite Z.eqb_refl. apply andb_false_r.
Qed.

Lemma has_flag_lor_other (f b b' k k' : Z) :
  0 <= k -> 0 <= k' -> k <> k' -> b = 2 ^ k -> b' = 2 ^ k' ->
  has_flag (Z.lor f b') b = has_flag f b.
Proof.
  intros Hk Hk' Hne -> ->.
  rewrite !has_flag_testbit, Z.lor_spec, Z.pow2_bits_eqb by lia.
  replace (k' =? k) with false by (symmetry; apply Z.eqb_neq; lia).
  apply orb_false_r.
Qed.

Lemma has_flag_land_other (f b b' k k' : Z) :
  0 <= k -> 0 <= k' -> k <> k' -> b = 2 ^ k -> b' = 2 ^ k' ->
  has_flag (Z.land f (Z.lnot b')) b = has_flag f b.
Proof.
  intros Hk Hk' Hne -> ->.
  rewrite !has_flag_testbit, Z.land_spec, Z.lnot_spec, Z.pow2_bits_eqb by lia.
  replace (k' =? k) with false by (symmetry; apply Z.eqb_neq; lia).
  apply andb_true_r.
Qed.

(** ** The monad *)

Lemma bind_run {S A B} (m : M S A) (k : A -> M S B) (s s' : S) (a : A) :
  m s = Ret a s' -> bind m k s = k a s'.
Proof. unfold bind. now intros ->. Qed.

Lemma bind_ext {S A B} (m : M S A) (k1 k2 : A -> M S B) (s : S) :
  (forall a s', m s = Ret a s' -> k1 a s' = k2 a s') ->
  bind m k1 s = bind m k2 s.
Proof. unfold bind. intros Hk. destruct (m s); auto. Qed.

Lemma bind_inv {S A B} (m : M S A) (k : A -> M S B) (s s2 : S) (b : B) :
  bind m k s = Ret b s2 -> exists a s1, m s = Ret a s1 /\ k a s1 = Ret b s2.
Proof. unfold bind. destruct (m s) as [a s1| |]; [eauto|discriminate..]. Qed.

Lemma gets_run {S A} (f : S -> A) (s : S) : gets f s = Ret (f s) s.
Proof. reflexivity. Qed.

(** ** The slot array *)

Lemma slot_read_lookup (es : list int_key_t) (i : Z) :
  slot_read es i = default key0 (es !! Z.to_nat i).
Proof. unfold slot_read. apply nth_lookup. Qed.

Lemma lookup_pad (n : nat) (es : list int_key_t) (j : nat) :
  default key0 (pad n es !! j) = default key0 (es !! j).
Proof.
  unfold pad. destruct (decide (j < length es)%nat) as [Hlt|Hge].
  - now rewrite lookup_app_l.
  - rewrite lookup_app_r by lia. rewrite (lookup_ge_None_2 es j) by lia.
    destruct (replicate _ _ !! _) as [e|] eqn:E; [|reflexivity].
    apply lookup_replicate in E as [-> _]. reflexivity.
Qed.

Lemma length_pad (n : nat) (es : list int_key_t) :
  (n <= length (pad n es))%nat.
Proof. unfold pad. rewrite length_app, length_replicate. lia. Qed.

(** The [n] slots copied from slot [off] are the slots [off .. off+n). *)
Lemma slot_read_copy (es : list int_key_t) (off n i : Z) :
  0 <= off -> 0 <= i < n ->
  slot_read (slots_copy es off n) i = slot_read es (off + i).
Proof.
  intros Hoff Hi. rewrite !slot_read_lookup. unfold slots_copy.
  rewrite lookup_take_lt by lia. rewrite lookup_drop.
  rewrite lookup_pad. f_equal. f_equal. lia.
Qed.

Lemma slots_blit_fresh (vals : list int_key_t) : slots_blit [] 0 vals = vals.
Proof.
  unfold slots_blit. cbn. rewrite drop_nil. apply app_nil_r.
Qed.

Lemma u32_small (z : Z) : 0 <= z < 2 ^ 32 -> u32 z = z.
Proof. intros Hz. unfold u32. now apply Z.mod_small. Qed.

(** ** The cursors *)

Section CursorProofs.
Import BtreeCursor.
Context {Co : Collaborators} {L : NodeLayout}.

Local Abbreviation M := (M ham_db_t).

(** Running the primitives on a state whose lookups are known. *)
Ltac run_step :=
  repeat (progress (unfold
    db_get_backend, db_get_txn, db_get_error, db_set_error, db_get_cursors,
    db_set_cursors, btree_get_rootpage, begin_local, abort_local,
    ham_txn_begin, ham_txn_abort, ham_txn_commit,
    bt_cursor_is_nil, bt_cursor_get_flags, bt_cursor_get_coupled_page,
    bt_cursor_get_coupled_index, bt_cursor_get_uncoupled_key,
    bt_cursor_set_flags, bt_cursor_set_dupe_id, bt_cursor_set_uncoupled_key,
    ham_mem_free_key, ham_assert));
  unfold read_cursor, write_cursor, bind, ret, gets, modify, crash; cbn.

(** C7. A cursor erase on a NIL cursor, in a database without an outer
    transaction, begins a private transaction and returns
    [HAM_CURSOR_IS_NIL] with that transaction still the active one: the
    last call that reached the transaction manager is the begin, neither
    a commit nor an abort follows it. *)
Theorem C7_erase_on_nil_cursor_leaves_txn_open
    (db : ham_db_t) (c : Z) (cu : ham_bt_cursor_t) (flags : Z) :
  db_backend db = true ->
  db_txn db = 0 ->
  txn_begin_status db = 0 ->
  db_heap db !! c = Some cu ->
  is_nil_flags (c_flags cu) = true ->
  exists db',
    bt_cursor_erase c flags db = Ret HAM_CURSOR_IS_NIL db' /\
    txn_log db' = txn_log db ++ [Txn_begin (Z.of_nat (length (txn_log db)) + 1)] /\
    db_txn db' = Z.of_nat (length (txn_log db)) + 1 /\
    db_txn db' <> 0.
Proof.
  intros Hbe Htxn Hbegin Hc Hnil.
  unfold bt_cursor_erase. run_step.
  rewrite Hbe, Htxn. cbn. rewrite Hbegin. cbn. rewrite Hc. cbn.
  unfold is_nil_flags in Hnil. apply andb_true_iff in Hnil as [H1 H2].
  apply negb_true_iff in H1, H2. rewrite H1, H2. cbn.
  eexists. split; [reflexivity|]. cbn. repeat split; lia.
Qed.

(** *** The NIL cursor in bt_cursor_move *)

Lemma begin_local_heap (l : bool) (db s : ham_db_t) (b : ham_status_t * Z) :
  begin_local l db = Ret b s -> db_heap s = db_heap db.
Proof.
  unfold begin_local, ham_txn_begin, ret. destruct l; [|now intros [= _ <-]].
  destruct (negb (txn_begin_status db =? 0)); now intros [= _ <-].
Qed.

Lemma begin_local_no_crash (l : bool) (db : ham_db_t) :
  exists b s, begin_local l db = Ret b s.
Proof.
  unfold begin_local, ham_txn_begin, ret. destruct l; [|eauto].
  destruct (negb (txn_begin_status db =? 0)); eauto.
Qed.

Lemma begin_local_run_local (db : ham_db_t) :
  txn_begin_status db = 0 ->
  begin_local true db
  = Ret (HAM_SUCCESS, Z.of_nat (length (txn_log db)) + 1)
        (set_txn (Z.of_nat (length (txn_log db)) + 1)
           (set_txn_log
              (fun l => l ++ [Txn_begin (Z.of_nat (length (txn_log db)) + 1)]) db)).
Proof. intros Hb. unfold begin_local, ham_txn_begin. now rewrite Hb. Qed.

Lemma begin_local_run_outer (db : ham_db_t) :
  begin_local false db = Ret (HAM_SUCCESS, 0) db.
Proof. reflexivity. Qed.

Lemma bt_cursor_is_nil_run (db : ham_db_t) (c : Z) (cu : ham_bt_cursor_t) :
  db_heap db !! c = Some cu ->
  bt_cursor_is_nil c db = Ret (is_nil_flags (c_flags cu)) db.
Proof. intros Hc. run_step. now rewrite Hc. Qed.

Lemma my_move_first_flags (fuel : nat) (c f1 f2 : Z) :
  my_move_first fuel c f1 = my_move_first fuel c f2.
Proof. reflexivity. Qed.

(** The dispatch of [bt_cursor_move] on a NIL cursor only depends on the
    seeded direction. *)
Lemma move_seeded (fuel : nat) (db : ham_db_t) (c : Z) (cu : ham_bt_cursor_t)
    (key : option ham_key_t) (record : option ham_record_t) (f1 f2 : Z) :
  db_heap db !! c = Some cu ->
  is_nil_flags (c_flags cu) = true ->
  has_flag (seed_direction true f1) HAM_CURSOR_FIRST = true ->
  has_flag (seed_direction true f2) HAM_CURSOR_FIRST = true ->
  bt_cursor_move fuel c key record f1 db = bt_cursor_move fuel c key record f2 db.
Proof.
  intros Hc Hnil H1 H2. unfold bt_cursor_move.
  apply bind_ext. intros be s1 [= <- <-].
  apply bind_ext. intros txn0 s2 [= <- <-].
  destruct (negb (db_backend db)); [reflexivity|].
  apply bind_ext. intros b s Hb.
  destruct (negb (b.1 =? 0)); [reflexivity|].
  rewrite !(bind_run (bt_cursor_is_nil c) _ s s (is_nil_flags (c_flags cu)))
    by (apply bt_cursor_is_nil_run; rewrite (begin_local_heap _ _ _ _ Hb); exact Hc).
  rewrite Hnil. cbv zeta. rewrite H1, H2. reflexivity.
Qed.

Lemma move_seeded_last (fuel : nat) (db : ham_db_t) (c : Z) (cu : ham_bt_cursor_t)
    (key : option ham_key_t) (record : option ham_record_t) (f1 f2 : Z) :
  db_heap db !! c = Some cu ->
  is_nil_flags (c_flags cu) = true ->
  has_flag (seed_direction true f1) HAM_CURSOR_FIRST = false ->
  has_flag (seed_direction true f2) HAM_CURSOR_FIRST = false ->
  has_flag (seed_direction true f1) HAM_CURSOR_LAST = true ->
  has_flag (seed_direction true f2) HAM_CURSOR_LAST = true ->
  bt_cursor_move fuel c key record f1 db = bt_cursor_move fuel c key record f2 db.
Proof.
  intros Hc Hnil H1 H2 H3 H4. unfold bt_cursor_move.
  apply bind_ext. intros be s1 [= <- <-].
  apply bind_ext. intros txn0 s2 [= <- <-].
  destruct (negb (db_backend db)); [reflexivity|].
  apply bind_ext. intros b s Hb.
  destruct (negb (b.1 =? 0)); [reflexivity|].
  rewrite !(bind_run (bt_cursor_is_nil c) _ s s (is_nil_flags (c_flags cu)))
    by (apply bt_cursor_is_nil_run; rewrite (begin_local_heap _ _ _ _ Hb); exact Hc).
  rewrite Hnil. cbv zeta. rewrite H1, H2, H3, H4. reflexivity.
Qed.

Lemma seed_next (flags : Z) :
  has_flag flags HAM_CURSOR_NEXT = true ->
  seed_direction true flags
  = Z.lor (Z.land flags (Z.lnot HAM_CURSOR_NEXT)) HAM_CURSOR_FIRST.
Proof. unfold seed_direction. now intros ->. Qed.

Lemma seed_previous (flags : Z) :
  has_flag flags HAM_CURSOR_NEXT = false ->
  has_flag flags HAM_CURSOR_PREVIOUS = true ->
  seed_direction true flags
  = Z.lor (Z.land flags (Z.lnot HAM_CURSOR_PREVIOUS)) HAM_CURSOR_LAST.
Proof. unfold seed_direction. now intros -> ->. Qed.

Lemma seed_none (flags : Z) :
  has_flag flags HAM_CURSOR_NEXT = false ->
  has_flag flags HAM_CURSOR_PREVIOUS = false ->
  seed_direction true flags = flags.
Proof. unfold seed_direction. now intros -> ->. Qed.

(** Reading a direction bit of a word in which another direction bit was
    set or cleared. *)
Ltac flag_bits :=
  repeat first
    [ rewrite (has_flag_set _ HAM_CURSOR_FIRST 0) by (reflexivity || lia)
    | rewrite (has_flag_set _ HAM_CURSOR_LAST 1) by (reflexivity || lia)
    | rewrite (has_flag_cleared _ HAM_CURSOR_NEXT 2) by (reflexivity || lia)
    | rewrite (has_flag_cleared _ HAM_CURSOR_PREVIOUS 3) by (reflexivity || lia)
    | rewrite (has_flag_lor_other _ HAM_CURSOR_FIRST HAM_CURSOR_LAST 0 1)
        by (reflexivity || lia)
    | rewrite (has_flag_land_other _ HAM_CURSOR_FIRST HAM_CURSOR_NEXT 0 2)
        by (reflexivity || lia)
    | rewrite (has_flag_land_other _ HAM_CURSOR_FIRST HAM_CURSOR_PREVIOUS 0 3)
        by (reflexivity || lia)
    | rewrite (has_flag_lor_other _ HAM_CURSOR_LAST HAM_CURSOR_FIRST 1 0)
        by (reflexivity || lia)
    | rewrite (has_flag_land_other _ HAM_CURSOR_LAST HAM_CURSOR_NEXT 1 2)
        by (reflexivity || lia)
    | rewrite (has_flag_land_other _ HAM_CURSOR_LAST HAM_CURSOR_PREVIOUS 1 3)
        by (reflexivity || lia)
    | rewrite (has_flag_lor_other _ HAM_CURSOR_NEXT HAM_CURSOR_FIRST 2 0)
        by (reflexivity || lia)
    | rewrite (has_flag_lor_other _ HAM_CURSOR_NEXT HAM_CURSOR_LAST 2 1)
        by (reflexivity || lia)
    | rewrite (has_flag_land_other _ HAM_CURSOR_NEXT HAM_CURSOR_PREVIOUS 2 3)
        by (reflexivity || lia)
    | rewrite (has_flag_lor_other _ HAM_CURSOR_PREVIOUS HAM_CURSOR_FIRST 3 0)
        by (reflexivity || lia)
    | rewrite (has_flag_lor_other _ HAM_CURSOR_PREVIOUS HAM_CURSOR_LAST 3 1)
        by (reflexivity || lia)
    | rewrite (has_flag_land_other _ HAM_CURSOR_PREVIOUS HAM_CURSOR_NEXT 3 2)
        by (reflexivity || lia) ].

Lemma move_next_as_first (fuel : nat) (db : ham_db_t) (c : Z) (cu : ham_bt_cursor_t)
    (key : option ham_key_t) (record : option ham_record_t) (flags : Z) :
  db_heap db !! c = Some cu ->
  is_nil_flags (c_flags cu) = true ->
  has_flag flags HAM_CURSOR_NEXT = true ->
  bt_cursor_move fuel c key record flags db
  = bt_cursor_move fuel c key record
      (Z.lor (Z.land flags (Z.lnot HAM_CURSOR_NEXT)) HAM_CURSOR_FIRST) db.
Proof.
  intros Hc Hnil Hnext. apply (move_seeded fuel db c cu); try assumption.
  - rewrite seed_next by assumption. now flag_bits.
  - unfold seed_direction. flag_bits.
    destruct (has_flag flags HAM_CURSOR_PREVIOUS); now flag_bits.
Qed.

Lemma move_previous_as_last (fuel : nat) (db : ham_db_t) (c : Z)
    (cu : ham_bt_cursor_t) (key : option ham_key_t) (record : option ham_record_t)
    (flags : Z) :
  db_heap db !! c = Some cu ->
  is_nil_flags (c_flags cu) = true ->
  has_flag flags HAM_CURSOR_NEXT = false ->
  has_flag flags HAM_CURSOR_PREVIOUS = true ->
  bt_cursor_move fuel c key record flags db
  = bt_cursor_move fuel c key record
      (Z.lor (Z.land flags (Z.lnot HAM_CURSOR_PREVIOUS)) HAM_CURSOR_LAST) db.
Proof.
  intros Hc Hnil Hnext Hprev.
  assert (Hseed2 : seed_direction true
            (Z.lor (Z.land flags (Z.lnot HAM_CURSOR_PREVIOUS)) HAM_CURSOR_LAST)
          = Z.lor (Z.land flags (Z.lnot HAM_CURSOR_PREVIOUS)) HAM_CURSOR_LAST).
  { apply seed_none; flag_bits; [assumption|reflexivity]. }
  destruct (has_flag flags HAM_CURSOR_FIRST) eqn:Hfirst.
  - apply (move_seeded fuel db c cu); try assumption.
    + rewrite seed_previous by assumption. now flag_bits.
    + rewrite Hseed2. now flag_bits.
  - apply (move_seeded_last fuel db c cu); try assumption.
    + rewrite seed_previous by assumption. now flag_bits.
    + rewrite Hseed2. now flag_bits.
    + rewrite seed_previous by assumption. now flag_bits.
    + rewrite Hseed2. now flag_bits.
Qed.

Lemma move_without_direction (fuel : nat) (db : ham_db_t) (c : Z)
    (cu : ham_bt_cursor_t) (key : option ham_key_t) (record : option ham_record_t)
    (flags : Z) :
  db_heap db !! c = Some cu ->
  is_nil_flags (c_flags cu) = true ->
  has_flag flags HAM_CURSOR_FIRST = false ->
  has_flag flags HAM_CURSOR_LAST = false ->
  has_flag flags HAM_CURSOR_NEXT = false ->
  has_flag flags HAM_CURSOR_PREVIOUS = false ->
  db_backend db = true ->
  db_txn db <> 0 \/ txn_begin_status db = 0 ->
  exists db',
    bt_cursor_move fuel c key record flags db
    = Ret (match key, record with
           | None, None => HAM_SUCCESS
           | _, _ => HAM_CURSOR_IS_NIL
           end, key, record) db' /\
    db_heap db' = db_heap db /\
    txn_log db' = nil_move_log db.
Proof.
  intros Hc Hnil Hf Hl Hn Hp Hbe Htxn.
  assert (Hnil_run : forall s, db_heap s = db_heap db ->
            bt_cursor_is_nil c s = Ret true s).
  { intros s Hs. rewrite (bt_cursor_is_nil_run s c cu) by (now rewrite Hs).
    now rewrite Hnil. }
  unfold bt_cursor_move, nil_move_log.
  rewrite (bind_run _ _ db db true) by (unfold db_get_backend, gets; now rewrite Hbe).
  rewrite (bind_run _ _ db db (db_txn db)) by reflexivity. cbn [negb].
  destruct (Z.eqb_spec (db_txn db) 0) as [E|E].
  - destruct Htxn as [?|Hbegin]; [contradiction|].
    erewrite bind_run by (apply begin_local_run_local; exact Hbegin).
    cbn [Z.eqb negb fst snd HAM_SUCCESS].
    rewrite (bind_run _ _ _ _ true) by (now apply Hnil_run).
    rewrite seed_none by assumption. rewrite Hf, Hl, Hn, Hp.
    rewrite (bind_run _ _ _ _ true) by (now apply Hnil_run).
    unfold abort_local, ham_txn_abort. unfold bind, ret. cbn.
    eexists. split; [destruct key, record; reflexivity|].
    split; [reflexivity|]. cbn. now rewrite <- app_assoc.
  - erewrite bind_run by (apply begin_local_run_outer).
    cbn [Z.eqb negb fst snd HAM_SUCCESS].
    rewrite (bind_run _ _ _ _ true) by (now apply Hnil_run).
    rewrite seed_none by assumption. rewrite Hf, Hl, Hn, Hp.
    rewrite (bind_run _ _ _ _ true) by (now apply Hnil_run).
    unfold abort_local. unfold bind, ret.
    eexists. split; [destruct key, record; reflexivity|]. split; reflexivity.
Qed.

(** C6. On a NIL cursor a move with NEXT is the move with NEXT replaced
    by FIRST and a move with PREVIOUS the move with PREVIOUS replaced by
    LAST, in status, output and final state; a move without a direction
    returns [HAM_CURSOR_IS_NIL] exactly when a key or a record buffer is
    supplied and [HAM_SUCCESS] otherwise (the backend being bound and the
    private transaction, if one is needed, having begun). *)
Theorem C6_move_on_nil_cursor (fuel : nat) (db : ham_db_t) (c : Z)
    (cu : ham_bt_cursor_t) (key : option ham_key_t) (record : option ham_record_t) :
  db_heap db !! c = Some cu ->
  is_nil_flags (c_flags cu) = true ->
  bt_cursor_move fuel c key record HAM_CURSOR_NEXT db
    = bt_cursor_move fuel c key record HAM_CURSOR_FIRST db /\
  bt_cursor_move fuel c key record HAM_CURSOR_PREVIOUS db
    = bt_cursor_move fuel c key record HAM_CURSOR_LAST db /\
  (forall flags,
     has_flag flags HAM_CURSOR_NEXT = true ->
     bt_cursor_move fuel c key record flags db
     = bt_cursor_move fuel c key record
         (Z.lor (Z.land flags (Z.lnot HAM_CURSOR_NEXT)) HAM_CURSOR_FIRST) db) /\
  (forall flags,
     has_flag flags HAM_CURSOR_NEXT = false ->
     has_flag flags HAM_CURSOR_PREVIOUS = true ->
     bt_cursor_move fuel c key record flags db
     = bt_cursor_move fuel c key record
         (Z.lor (Z.land flags (Z.lnot HAM_CURSOR_PREVIOUS)) HAM_CURSOR_LAST) db) /\
  (forall flags,
     has_flag flags HAM_CURSOR_FIRST = false ->
     has_flag flags HAM_CURSOR_LAST = false ->
     has_flag flags HAM_CURSOR_NEXT = false ->
     has_flag flags HAM_CURSOR_PREVIOUS = false ->
     db_backend db = true ->
     db_txn db <> 0 \/ txn_begin_status db = 0 ->
     exists db',
       bt_cursor_move fuel c key record flags db
       = Ret (match key, record with
              | None, None => HAM_SUCCESS
              | _, _ => HAM_CURSOR_IS_NIL
              end, key, record) db' /\
       db_heap db' = db_heap db /\
       txn_log db' = nil_move_log db).
Proof.
  intros Hc Hnil. repeat split.
  - apply (move_next_as_first fuel db c cu key record HAM_CURSOR_NEXT Hc Hnil).
    reflexivity.
  - apply (move_previous_as_last fuel db c cu key record HAM_CURSOR_PREVIOUS Hc Hnil);
      reflexivity.
  - intros flags. now apply (move_next_as_first fuel db c cu).
  - intros flags. now apply (move_previous_as_last fuel db c cu).
  - intros flags. now apply (move_without_direction fuel db c cu).
Qed.

(** *** FIRST and LAST on an empty tree *)

Lemma same_tree_refl (db : ham_db_t) : same_tree db db.
Proof. repeat split; eauto. Qed.

Lemma same_tree_empty (db db' : ham_db_t) :
  same_tree db db' -> tree_is_empty db -> tree_is_empty db'.
Proof.
  intros (Hr & _ & _ & Hp) [H0|(p & Hl & Hcount)]; [left; congruence|].
  right. destruct (Hp _ _ Hl) as (p' & Hl' & Hn).
  exists p'. rewrite Hr. split; [exact Hl'|congruence].
Qed.

Lemma is_nil_after_clear_uncoupled (f : Z) :
  has_flag f BT_CURSOR_FLAG_COUPLED = false ->
  is_nil_flags (Z.land f (Z.lnot BT_CURSOR_FLAG_UNCOUPLED)) = true.
Proof.
  intros Hc. unfold is_nil_flags.
  rewrite (has_flag_cleared _ BT_CURSOR_FLAG_UNCOUPLED 1) by (reflexivity || lia).
  rewrite (has_flag_land_other _ BT_CURSOR_FLAG_COUPLED BT_CURSOR_FLAG_UNCOUPLED 0 1)
    by (reflexivity || lia).
  now rewrite Hc.
Qed.

Lemma is_nil_after_clear_coupled (f : Z) :
  has_flag f BT_CURSOR_FLAG_UNCOUPLED = false ->
  is_nil_flags (Z.land f (Z.lnot BT_CURSOR_FLAG_COUPLED)) = true.
Proof.
  intros Hc. unfold is_nil_flags.
  rewrite (has_flag_cleared _ BT_CURSOR_FLAG_COUPLED 0) by (reflexivity || lia).
  rewrite (has_flag_land_other _ BT_CURSOR_FLAG_UNCOUPLED BT_CURSOR_FLAG_COUPLED 1 0)
    by (reflexivity || lia).
  now rewrite Hc.
Qed.

Lemma bt_cursor_set_to_nil_run (db : ham_db_t) (c : Z) (cu : ham_bt_cursor_t) :
  db_heap db !! c = Some cu ->
  cursor_mode_ok db cu ->
  exists db' cu',
    bt_cursor_set_to_nil c db = Ret 0 db' /\
    db_heap db' !! c = Some cu' /\
    is_nil_flags (c_flags cu') = true /\
    same_tree db db'.
Proof.
  intros Hc [Hex Hpage]. unfold bt_cursor_set_to_nil.
  rewrite (bind_run _ _ db db (c_flags cu)) by (run_step; now rewrite Hc).
  destruct (has_flag (c_flags cu) BT_CURSOR_FLAG_UNCOUPLED) eqn:Hu.
  - run_step. rewrite Hc. repeat (first [rewrite lookup_insert_eq|progress cbn]).
    eexists _, _. split; [reflexivity|]. cbn. rewrite lookup_insert_eq.
    split; [reflexivity|]. cbn.
    split; [apply is_nil_after_clear_uncoupled; auto|repeat split; cbn; eauto].
  - destruct (has_flag (c_flags cu) BT_CURSOR_FLAG_COUPLED) eqn:Hco.
    + destruct (Hpage eq_refl eq_refl) as [p Hp].
      run_step. unfold page_remove_cursor, write_page. rewrite Hc. cbn.
      repeat (first [rewrite Hp|rewrite Hc|rewrite lookup_insert_eq|progress cbn]).
      eexists _, _. split; [reflexivity|]. cbn. rewrite lookup_insert_eq.
      split; [reflexivity|]. cbn.
      split; [apply is_nil_after_clear_coupled; auto|].
      repeat split. cbn. intros id q Hq.
      destruct (decide (c_coupled_page cu = id)) as [E|Hne].
      * subst id. rewrite lookup_insert_eq. eexists. split; [reflexivity|].
        assert (q = p) as -> by congruence. reflexivity.
      * rewrite lookup_insert_ne by exact Hne. eauto.
    + run_step. rewrite Hc. cbn.
      eexists _, _. split; [reflexivity|]. cbn. rewrite lookup_insert_eq.
      split; [reflexivity|]. cbn.
      split; [unfold is_nil_flags; now rewrite Hu, Hco|repeat split; cbn; eauto].
Qed.

Lemma seed_keeps_first (nil : bool) (flags : Z) :
  has_flag flags HAM_CURSOR_FIRST = true ->
  has_flag (seed_direction nil flags) HAM_CURSOR_FIRST = true.
Proof.
  intros Hf. unfold seed_direction.
  destruct nil, (has_flag flags HAM_CURSOR_NEXT), (has_flag flags HAM_CURSOR_PREVIOUS);
    flag_bits; auto.
Qed.

Lemma seed_keeps_last (nil : bool) (flags : Z) :
  has_flag flags HAM_CURSOR_LAST = true ->
  has_flag (seed_direction nil flags) HAM_CURSOR_LAST = true.
Proof.
  intros Hf. unfold seed_direction.
  destruct nil, (has_flag flags HAM_CURSOR_NEXT), (has_flag flags HAM_CURSOR_PREVIOUS);
    flag_bits; auto.
Qed.

(** After [bt_cursor_set_to_nil] and the reset of the error, both moves
    find the tree empty before they touch the cursor again. *)
Lemma my_move_first_empty (fuel : nat) (db : ham_db_t) (c : Z)
    (cu : ham_bt_cursor_t) (flags : Z) :
  db_heap db !! c = Some cu ->
  cursor_mode_ok db cu ->
  tree_is_empty db ->
  exists db' cu',
    my_move_first (S fuel) c flags db = Ret HAM_KEY_NOT_FOUND db' /\
    db_heap db' !! c = Some cu' /\
    is_nil_flags (c_flags cu') = true /\
    db_txn db' = db_txn db /\ txn_log db' = txn_log db.
Proof.
  intros Hc Hok Hempty.
  destruct (bt_cursor_set_to_nil_run db c cu Hc Hok)
    as (db1 & cu1 & Hrun & Hc1 & Hnil1 & Hsame).
  pose proof (same_tree_empty _ _ Hsame Hempty) as Hempty1.
  destruct Hsame as (_ & Htxn & Hlog & _).
  unfold my_move_first. rewrite (bind_run _ _ _ _ _ Hrun). cbn [negb Z.eqb].
  unfold db_set_error, btree_get_rootpage, db_get_error.
  unfold bind at 1 2 3, modify at 1, ret at 1, gets at 1. cbn [btree_rootpage set_error].
  destruct (Z.eqb_spec (btree_rootpage db1) 0) as [E0|E0].
  - unfold bind, modify, ret. exists (set_error HAM_KEY_NOT_FOUND (set_error 0 db1)), cu1.
    repeat split; assumption.
  - destruct Hempty1 as [?|(p & Hp & Hcount)]; [contradiction|].
    unfold db_fetch_page at 1. unfold bind at 1. cbn [db_pages set_error]. rewrite Hp.
    destruct (Z.eqb_spec (btree_rootpage db1) 0) as [?|_]; [contradiction|].
    unfold first_descend, btree_node_get_count, read_page.
    unfold bind at 1 2. cbn [db_pages set_error]. rewrite Hp, Hcount. cbn [Z.eqb].
    unfold bind, modify, ret.
    exists (set_error HAM_KEY_NOT_FOUND (set_error 0 db1)), cu1.
    repeat split; assumption.
Qed.

Lemma my_move_last_empty (fuel : nat) (db : ham_db_t) (c : Z)
    (cu : ham_bt_cursor_t) (flags : Z) :
  db_heap db !! c = Some cu ->
  cursor_mode_ok db cu ->
  tree_is_empty db ->
  exists db' cu',
    my_move_last (S fuel) c flags db = Ret HAM_KEY_NOT_FOUND db' /\
    db_heap db' !! c = Some cu' /\
    is_nil_flags (c_flags cu') = true /\
    db_txn db' = db_txn db /\ txn_log db' = txn_log db.
Proof.
  intros Hc Hok Hempty.
  destruct (bt_cursor_set_to_nil_run db c cu Hc Hok)
    as (db1 & cu1 & Hrun & Hc1 & Hnil1 & Hsame).
  pose proof (same_tree_empty _ _ Hsame Hempty) as Hempty1.
  destruct Hsame as (_ & Htxn & Hlog & _).
  unfold my_move_last. rewrite (bind_run _ _ _ _ _ Hrun). cbn [negb Z.eqb].
  unfold db_set_error, btree_get_rootpage, db_get_error.
  unfold bind at 1 2 3, modify at 1, ret at 1, gets at 1. cbn [btree_rootpage set_error].
  destruct (Z.eqb_spec (btree_rootpage db1) 0) as [E0|E0].
  - unfold bind, modify, ret. exists (set_error HAM_KEY_NOT_FOUND (set_error 0 db1)), cu1.
    repeat split; assumption.
  - destruct Hempty1 as [?|(p & Hp & Hcount)]; [contradiction|].
    unfold db_fetch_page at 1. unfold bind at 1. cbn [db_pages set_error]. rewrite Hp.
    destruct (Z.eqb_spec (btree_rootpage db1) 0) as [?|_]; [contradiction|].
    unfold last_descend, btree_node_get_count, read_page.
    unfold bind at 1 2. cbn [db_pages set_error]. rewrite Hp, Hcount. cbn [Z.eqb].
    unfold bind, modify, ret.
    exists (set_error HAM_KEY_NOT_FOUND (set_error 0 db1)), cu1.
    repeat split; assumption.
Qed.

Lemma move_on_empty_tree (fuel : nat) (db : ham_db_t) (c : Z)
    (cu : ham_bt_cursor_t) (key : option ham_key_t) (record : option ham_record_t)
    (flags : Z) :
  db_backend db = true ->
  db_txn db <> 0 \/ txn_begin_status db = 0 ->
  db_heap db !! c = Some cu ->
  cursor_mode_ok db cu ->
  tree_is_empty db ->
  has_flag flags HAM_CURSOR_FIRST = true \/ has_flag flags HAM_CURSOR_LAST = true ->
  exists db' cu',
    bt_cursor_move (S fuel) c key record flags db
    = Ret (HAM_KEY_NOT_FOUND, key, record) db' /\
    db_heap db' !! c = Some cu' /\
    is_nil_flags (c_flags cu') = true.
Proof.
  intros Hbe Htxn Hc Hok Hempty Hdir.
  assert (Hmoves : forall s F,
            db_heap s = db_heap db -> db_pages s = db_pages db ->
            btree_rootpage s = btree_rootpage db ->
            (exists s' cu', my_move_first (S fuel) c F s = Ret HAM_KEY_NOT_FOUND s' /\
               db_heap s' !! c = Some cu' /\ is_nil_flags (c_flags cu') = true) /\
            (exists s' cu', my_move_last (S fuel) c F s = Ret HAM_KEY_NOT_FOUND s' /\
               db_heap s' !! c = Some cu' /\ is_nil_flags (c_flags cu') = true)).
  { intros s F Hh Hp Hr.
    assert (Hc' : db_heap s !! c = Some cu) by (now rewrite Hh).
    assert (Hok' : cursor_mode_ok s cu) by (unfold cursor_mode_ok; now rewrite Hp).
    assert (Hempty' : tree_is_empty s) by (unfold tree_is_empty; now rewrite Hp, Hr).
    split.
    - destruct (my_move_first_empty fuel s c cu F Hc' Hok' Hempty')
        as (s' & cu' & ? & ? & ? & _); eauto.
    - destruct (my_move_last_empty fuel s c cu F Hc' Hok' Hempty')
        as (s' & cu' & ? & ? & ? & _); eauto. }
  assert (Hbegin : exists txn s,
            begin_local (db_txn db =? 0) db = Ret (HAM_SUCCESS, txn) s /\
            db_heap s = db_heap db /\ db_pages s = db_pages db /\
            btree_rootpage s = btree_rootpage db).
  { destruct (Z.eqb_spec (db_txn db) 0) as [E|E].
    - destruct Htxn as [?|Hb]; [contradiction|].
      rewrite (begin_local_run_local db Hb). eexists _, _. repeat split.
    - rewrite begin_local_run_outer. eexists _, _. repeat split. }
  destruct Hbegin as (txn & s & Hb & Hh & Hp & Hr).
  unfold bt_cursor_move.
  rewrite (bind_run _ _ db db true) by (unfold db_get_backend, gets; now rewrite Hbe).
  rewrite (bind_run _ _ db db (db_txn db)) by reflexivity. cbn [negb].
  rewrite (bind_run _ _ _ _ _ Hb). cbn [Z.eqb negb fst snd HAM_SUCCESS].
  rewrite (bind_run _ _ s s (is_nil_flags (c_flags cu)))
    by (apply bt_cursor_is_nil_run; now rewrite Hh).
  cbv zeta.
  destruct (Hmoves s (seed_direction (is_nil_flags (c_flags cu)) flags) Hh Hp Hr)
    as [(s1 & cu1 & Hf & Hc1 & Hn1) (s2 & cu2 & Hl & Hc2 & Hn2)].
  destruct (has_flag (seed_direction (is_nil_flags (c_flags cu)) flags)
              HAM_CURSOR_FIRST) eqn:Efirst.
  - rewrite (bind_run _ _ _ _ _ Hf). cbn [negb Z.eqb HAM_KEY_NOT_FOUND].
    unfold abort_local, ham_txn_abort, bind, ret.
    destruct (db_txn db =? 0); eauto.
  - destruct Hdir as [Hd|Hd].
    + rewrite (seed_keeps_first _ _ Hd) in Efirst. discriminate.
    + rewrite (seed_keeps_last _ _ Hd).
      rewrite (bind_run _ _ _ _ _ Hl). cbn [negb Z.eqb HAM_KEY_NOT_FOUND].
      unfold abort_local, ham_txn_abort, bind, ret.
      destruct (db_txn db =? 0); eauto.
Qed.

(** C10. On a tree that has no root page, or whose root node holds no
    entry, [my_move_first] and [my_move_last] return [HAM_KEY_NOT_FOUND]
    and leave the cursor NIL, and so does a cursor move whose direction
    is FIRST or LAST (the backend being bound and the private
    transaction, if one is needed, having begun). *)
Theorem C10_first_and_last_on_empty_tree (fuel : nat) (db : ham_db_t) (c : Z)
    (cu : ham_bt_cursor_t) (key : option ham_key_t) (record : option ham_record_t)
    (flags : Z) :
  db_heap db !! c = Some cu ->
  cursor_mode_ok db cu ->
  tree_is_empty db ->
  (exists db' cu',
     my_move_first (S fuel) c flags db = Ret HAM_KEY_NOT_FOUND db' /\
     db_heap db' !! c = Some cu' /\ is_nil_flags (c_flags cu') = true) /\
  (exists db' cu',
     my_move_last (S fuel) c flags db = Ret HAM_KEY_NOT_FOUND db' /\
     db_heap db' !! c = Some cu' /\ is_nil_flags (c_flags cu') = true) /\
  (db_backend db = true ->
   db_txn db <> 0 \/ txn_begin_status db = 0 ->
   has_flag flags HAM_CURSOR_FIRST = true \/ has_flag flags HAM_CURSOR_LAST = true ->
   exists db' cu',
     bt_cursor_move (S fuel) c key record flags db
     = Ret (HAM_KEY_NOT_FOUND, key, record) db' /\
     db_heap db' !! c = Some cu' /\ is_nil_flags (c_flags cu') = true).
Proof.
  intros Hc Hok Hempty. split; [|split].
  - destruct (my_move_first_empty fuel db c cu flags Hc Hok Hempty)
      as (s' & cu' & ? & ? & ? & _); eauto.
  - destruct (my_move_last_empty fuel db c cu flags Hc Hok Hempty)
      as (s' & cu' & ? & ? & ? & _); eauto.
  - intros Hbe Htxn Hdir. now apply (move_on_empty_tree fuel db c cu).
Qed.

End CursorProofs.

Lemma C7_erase_on_nil_cursor_witness :
  exists db',
    BtreeCursor.bt_cursor_erase (CO := Examples.idle_collaborators)
      (NL := Examples.ptr_left_layout) 100 0 Examples.cursor_db1
      = Ret HAM_CURSOR_IS_NIL db' /\
    BtreeCursor.txn_log db' = [BtreeCursor.Txn_begin 1] /\
    BtreeCursor.db_txn db' = 1 /\
    BtreeCursor.db_txn db' <> 0.
Proof.
  apply (C7_erase_on_nil_cursor_leaves_txn_open
           (Co := Examples.idle_collaborators) (L := Examples.ptr_left_layout)
           Examples.cursor_db1 100 BtreeCursor.cursor0 0); reflexivity.
Defined.

Lemma C6_move_on_nil_cursor_witness :
  BtreeCursor.bt_cursor_move (CO := Examples.idle_collaborators)
    (NL := Examples.ptr_left_layout) 2 100 None None
    BtreeCursor.HAM_CURSOR_NEXT Examples.cursor_db_empty_root
  = BtreeCursor.bt_cursor_move (CO := Examples.idle_collaborators)
      (NL := Examples.ptr_left_layout) 2 100 None None
      BtreeCursor.HAM_CURSOR_FIRST Examples.cursor_db_empty_root /\
  exists db',
    BtreeCursor.bt_cursor_move (CO := Examples.idle_collaborators)
      (NL := Examples.ptr_left_layout) 2 100 (Some (mk_key 0 None)) None 0
      Examples.cursor_db_empty_root
    = Ret (HAM_CURSOR_IS_NIL, Some (mk_key 0 None), None) db' /\
    BtreeCursor.db_heap db' = BtreeCursor.db_heap Examples.cursor_db_empty_root /\
    BtreeCursor.txn_log db' = [BtreeCursor.Txn_begin 1; BtreeCursor.Txn_abort 1].
Proof.
  split.
  - destruct (C6_move_on_nil_cursor (Co := Examples.idle_collaborators)
                (L := Examples.ptr_left_layout) 2 Examples.cursor_db_empty_root 100
                BtreeCursor.cursor0 None None eq_refl eq_refl) as (Hnext & _).
    exact Hnext.
  - destruct (C6_move_on_nil_cursor (Co := Examples.idle_collaborators)
                (L := Examples.ptr_left_layout) 2 Examples.cursor_db_empty_root 100
                BtreeCursor.cursor0 (Some (mk_key 0 None)) None eq_refl eq_refl)
      as (_ & _ & _ & _ & Hnone).
    apply (Hnone 0); try reflexivity. right. reflexivity.
Defined.

Lemma C10_first_and_last_on_empty_tree_witness :
  exists db' cu',
    BtreeCursor.bt_cursor_move (CO := Examples.idle_collaborators)
      (NL := Examples.ptr_left_layout) 1 100 None None
      BtreeCursor.HAM_CURSOR_LAST Examples.cursor_db_empty_root
    = Ret (HAM_KEY_NOT_FOUND, None, None) db' /\
    BtreeCursor.db_heap db' !! 100 = Some cu' /\
    BtreeCursor.is_nil_flags (BtreeCursor.c_flags cu') = true.
Proof.
  apply (C10_first_and_last_on_empty_tree (Co := Examples.idle_collaborators)
           (L := Examples.ptr_left_layout) 0 Examples.cursor_db_empty_root 100
           BtreeCursor.cursor0 None None BtreeCursor.HAM_CURSOR_LAST).
  - reflexivity.
  - split; intros; [reflexivity|discriminate].
  - right. exists (fresh_page PAGE_TYPE_ROOT). split; reflexivity.
  - reflexivity.
  - right. reflexivity.
  - right. reflexivity.
Defined.

(** C8. Closing the cursor at the tail of a cursor list of two: the list
    is [200; 100] before the close; the close of 100 returns 0, frees 100
    and stores NULL as the head of the cursor list of the database, so
    the cursor 200, still allocated and never closed, is no longer
    reachable from the head. *)
Theorem C8_close_of_tail_cursor_loses_the_list :
  BtreeCursor.db_cursor_list Examples.cursor_db2 = [200; 100] /\
  exists db',
    BtreeCursor.bt_cursor_close 100 Examples.cursor_db2 = Ret 0 db' /\
    BtreeCursor.db_heap db' !! 100 = None /\
    is_Some (BtreeCursor.db_heap db' !! 200) /\
    BtreeCursor.db_cursors db' = 0 /\
    BtreeCursor.db_cursor_list db' = [].
Proof.
  split; [vm_compute; reflexivity|].
  eexists. split; [vm_compute; reflexivity|].
  repeat split; try (vm_compute; reflexivity).
  vm_compute. eexists. reflexivity.
Qed.

(** ** What the insert engine preserves *)

Section InsertFrames.
Import BtreeInsert.
Context {C : Comparator} {L : NodeLayout}.

Local Abbreviation M := (M ham_db_t).

Lemma extends_refl (db : ham_db_t) : extends db db.
Proof. repeat split; auto. Qed.

Lemma extends_trans (a b c : ham_db_t) : extends a b -> extends b c -> extends a c.
Proof.
  intros (E1 & R1 & M1 & P1) (E2 & R2 & M2 & P2).
  repeat split; [congruence..|auto].
Qed.

Lemma keeps_ret {A} (a : A) : keeps (ret a).
Proof. intros db x db' [= _ <-]. apply extends_refl. Qed.

Lemma keeps_bind {A B} (m : M A) (k : A -> M B) :
  keeps m -> (forall a, keeps (k a)) -> keeps (bind m k).
Proof.
  intros Hm Hk db b db' H. apply bind_inv in H as (a & s & H1 & H2).
  eapply extends_trans; [exact (Hm _ _ _ H1)|exact (Hk _ _ _ _ H2)].
Qed.

Lemma keeps_gets {A} (f : ham_db_t -> A) : keeps (gets f).
Proof. intros db x db' [= _ <-]. apply extends_refl. Qed.

Lemma keeps_read_page {A} (page : Z) (f : ham_page_t -> A) : keeps (read_page page f).
Proof.
  intros db x db'. unfold read_page.
  destruct (db_pages db !! page); [|discriminate].
  intros [= _ <-]. apply extends_refl.
Qed.

Lemma keeps_write_page (page : Z) (f : ham_page_t -> ham_page_t) :
  keeps (write_page page f).
Proof.
  intros db x db'. unfold write_page.
  destruct (db_pages db !! page) eqn:Hp; [|discriminate].
  intros [= _ <-]. split; [|split; [|split]]; [reflexivity..|]. cbn. intros id Hid.
  destruct (decide (page = id)) as [->|Hne].
  - rewrite lookup_insert_eq. eauto.
  - now rewrite lookup_insert_ne.
Qed.

Lemma keeps_log (e : event) : keeps (modify (log_event e)).
Proof. intros db x db' [= _ <-]. repeat split; auto. Qed.

Lemma keeps_fetch (id : Z) : keeps (db_fetch_page id).
Proof.
  intros db x db'. unfold db_fetch_page.
  destruct (db_pages db !! id); intros [= _ <-]; apply extends_refl.
Qed.

Lemma keeps_blob_allocate (data : list Z) (size rid : Z) :
  keeps (blob_allocate data size rid).
Proof.
  intros db x db'. unfold blob_allocate.
  destruct (blob_fresh db); intros [= _ <-]; repeat split; auto.
Qed.

Lemma keeps_util_copy_key (k : ham_key_t) : keeps (util_copy_key k).
Proof.
  intros db x db'. unfold util_copy_key.
  destruct (mem_budget db); intros [= _ <-]; repeat split; auto.
Qed.

Lemma keeps_mem_free : keeps ham_mem_free.
Proof. intros db x db' [= _ <-]. repeat split; auto. Qed.

Lemma keeps_free_scratchpad_key (sp : insert_scratchpad_t) :
  keeps (free_scratchpad_key sp).
Proof.
  unfold free_scratchpad_key.
  destruct (key_data (sp_key sp)); [apply keeps_mem_free|apply keeps_ret].
Qed.

(** The proof that a composed computation only extends the state follows
    its shape. *)
Ltac keeps_step :=
  first
    [ apply keeps_ret
    | apply keeps_gets
    | apply keeps_read_page
    | apply keeps_write_page
    | apply keeps_log
    | apply keeps_fetch
    | apply keeps_blob_allocate
    | apply keeps_util_copy_key
    | apply keeps_mem_free
    | apply keeps_free_scratchpad_key
    | apply keeps_bind; [|intros ?]
    | match goal with
      | |- keeps (if ?c then _ else _) => destruct c
      | |- keeps (match ?x with _ => _ end) => destruct x
      end ].

Ltac keeps_tac :=
  unfold btree_node_get_count, btree_node_get_left, btree_node_get_right,
    btree_node_get_ptr_left, btree_node_get_key, btree_node_set_count,
    btree_node_set_ptr_left, btree_node_set_left, btree_node_set_right,
    btree_node_is_leaf, update_key, page_set_dirty, page_set_type,
    db_get_error, btree_get_rootpage, btree_get_maxkeys, page_get_self,
    key_compare_int_to_pub, memmove_keys, memcpy_keys;
  repeat keeps_step.

Lemma keeps_compare (page i : Z) (key : ham_key_t) :
  keeps (key_compare_int_to_pub page i key).
Proof. keeps_tac. Qed.

Lemma keeps_nosplit_scan (n : nat) (page : Z) (key : ham_key_t) (flags count i : Z) :
  keeps (nosplit_scan n page key flags count i).
Proof.
  revert i. induction n as [|n IH]; intros i; cbn [nosplit_scan]; [apply keeps_ret|].
  apply keeps_bind; [apply keeps_compare|intros cmp].
  apply keeps_bind; [apply keeps_gets|intros err].
  destruct (negb (err =? 0)); [apply keeps_ret|].
  destruct (cmp =? 0); [destruct (has_flag flags OVERWRITE); apply keeps_ret|].
  destruct (cmp >? 0); [keeps_tac|apply IH].
Qed.

Lemma keeps_my_insert_nosplit (page : Z) (key : ham_key_t) (rid : Z)
    (record : ham_record_t) (flags : Z) :
  keeps (my_insert_nosplit page key rid record flags).
Proof.
  unfold my_insert_nosplit.
  apply keeps_bind; [keeps_tac|intros count].
  apply keeps_bind; [apply keeps_nosplit_scan|intros x].
  destruct x as [st|i]; keeps_tac.
Qed.

Lemma keeps_split_insert_key (page newpage pivot : Z) (key : ham_key_t) (rid : Z)
    (record : ham_record_t) (flags : Z) :
  keeps (split_insert_key page newpage pivot key rid record flags).
Proof.
  unfold split_insert_key.
  apply keeps_bind; [apply keeps_compare|intros cmp].
  apply keeps_bind; [apply keeps_gets|intros err].
  destruct (negb (err =? 0)); [apply keeps_ret|].
  destruct (cmp <=? 0); apply keeps_my_insert_nosplit.
Qed.

Lemma keeps_split_link_siblings (page newpage : Z) :
  keeps (split_link_siblings page newpage).
Proof. unfold split_link_siblings. keeps_tac. Qed.

Lemma keeps_traverse_from (n : nat) (page : Z) (key : ham_key_t) (i child : Z) :
  keeps (traverse_from n page key i child).
Proof.
  revert i child. induction n as [|n IH]; intros i child; cbn [traverse_from];
    [apply keeps_ret|].
  apply keeps_bind; [apply keeps_compare|intros cmp].
  destruct (cmp >? 0); [apply keeps_ret|].
  apply keeps_bind; [keeps_tac|intros e]. apply IH.
Qed.

Lemma keeps_btree_traverse_tree (page : Z) (key : ham_key_t) :
  keeps (btree_traverse_tree page key).
Proof.
  unfold btree_traverse_tree.
  apply keeps_bind; [keeps_tac|intros count].
  apply keeps_bind; [keeps_tac|intros left].
  apply keeps_bind; [apply keeps_traverse_from|intros child].
  apply keeps_fetch.
Qed.

Lemma keeps_search_from (n : nat) (page : Z) (key : ham_key_t) (i : Z) :
  keeps (search_from n page key i).
Proof.
  revert i. induction n as [|n IH]; intros i; cbn [search_from]; [apply keeps_ret|].
  apply keeps_bind; [apply keeps_compare|intros cmp].
  destruct (cmp =? 0); [apply keeps_ret|apply IH].
Qed.

Lemma keeps_search_by_key (page : Z) (key : ham_key_t) :
  keeps (btree_node_search_by_key page key).
Proof.
  unfold btree_node_search_by_key.
  apply keeps_bind; [keeps_tac|intros count]. apply keeps_search_from.
Qed.

(** *** The statuses of the insert in a page *)

Ltac keeps_all :=
  repeat first
    [ apply keeps_my_insert_nosplit
    | apply keeps_nosplit_scan
    | apply keeps_split_insert_key
    | apply keeps_split_link_siblings
    | apply keeps_btree_traverse_tree
    | apply keeps_search_by_key
    | apply keeps_compare
    | progress keeps_tac ].

(** One step of a computation that began in a state [db0]: the result of
    the first part and the fact that its state extends [db0]. *)
Ltac step H E :=
  let a := fresh "a" in
  let s := fresh "s" in
  let Hm := fresh "Hm" in
  let E' := fresh "E" in
  apply bind_inv in H as (a & s & Hm & H);
  assert (E' : extends _ s)
    by (eapply extends_trans;
        [exact E|refine ((_ : keeps _) _ _ _ Hm); keeps_all]);
  clear E; rename E' into E.

Lemma nosplit_scan_status (n : nat) (page : Z) (key : ham_key_t)
    (flags count i : Z) (db db' : ham_db_t) (st : ham_status_t) :
  db_error db = 0 ->
  nosplit_scan n page key flags count i db = Ret (Returned st) db' ->
  st = HAM_SUCCESS \/ st = HAM_DUPLICATE_KEY.
Proof.
  revert i db. induction n as [|n IH]; intros i db Herr H; cbn [nosplit_scan] in H;
    [discriminate|].
  pose proof (extends_refl db) as E. step H E.
  apply bind_inv in H as (err & s' & [= <- <-] & H).
  destruct E as (E & _). rewrite E, Herr in H. cbn [Z.eqb negb] in H.
  destruct (a =? 0).
  - destruct (has_flag flags OVERWRITE); injection H as <- _; auto.
  - destruct (a >? 0).
    + apply bind_inv in H as (? & ? & _ & H). discriminate.
    + eapply IH; [|exact H]. congruence.
Qed.

Lemma blob_allocate_status (data : list Z) (size rid : Z) (db db' : ham_db_t)
    (r : ham_status_t * Z) :
  blob_allocate data size rid db = Ret r db' ->
  r.1 = HAM_SUCCESS \/ r.1 = HAM_OUT_OF_MEMORY.
Proof.
  unfold blob_allocate. destruct (blob_fresh db); intros [= <- _]; auto.
Qed.

(** [my_insert_nosplit] returns 0, [HAM_DUPLICATE_KEY] or the status of
    the blob store when the database carries no error. *)
Lemma my_insert_nosplit_status (page : Z) (key : ham_key_t) (rid : Z)
    (record : ham_record_t) (flags : Z) (db db' : ham_db_t) (st : ham_status_t) :
  db_error db = 0 ->
  my_insert_nosplit page key rid record flags db = Ret st db' ->
  st = HAM_SUCCESS \/ st = HAM_DUPLICATE_KEY \/ st = HAM_OUT_OF_MEMORY.
Proof.
  intros Herr H. unfold my_insert_nosplit in H.
  pose proof (extends_refl db) as E. step H E.
  apply bind_inv in H as (x & s' & Hscan & H).
  destruct x as [st0|i].
  - injection H as <- _. destruct E as (E & _).
    assert (Herr1 : db_error s = 0) by congruence.
    destruct (nosplit_scan_status _ _ _ _ _ _ _ _ _ Herr1 Hscan); auto.
  - apply bind_inv in H as (leaf & s1 & _ & H).
    apply bind_inv in H as (r & s2 & Hr & H).
    assert (Hst : r.1 = HAM_SUCCESS \/ r.1 = HAM_OUT_OF_MEMORY).
    { destruct (leaf && (record_size record >? sizeof_ham_offset_t)).
      - exact (blob_allocate_status _ _ _ _ _ _ Hr).
      - injection Hr as <- _. auto. }
    destruct (negb (r.1 =? 0)) eqn:Hneg.
    + injection H as <- _. destruct Hst as [Hst|Hst]; auto.
    + repeat (apply bind_inv in H as (? & ? & _ & H)).
      injection H as <- _. auto.
Qed.

Lemma split_insert_key_status (page newpage pivot : Z) (key : ham_key_t) (rid : Z)
    (record : ham_record_t) (flags : Z) (db db' : ham_db_t) (st : ham_status_t) :
  db_error db = 0 ->
  split_insert_key page newpage pivot key rid record flags db = Ret st db' ->
  st = HAM_SUCCESS \/ st = HAM_DUPLICATE_KEY \/ st = HAM_OUT_OF_MEMORY.
Proof.
  intros Herr H. unfold split_insert_key in H.
  pose proof (extends_refl db) as E. step H E.
  apply bind_inv in H as (err & s' & [= <- <-] & H).
  destruct E as (E & _). rewrite E, Herr in H. cbn [Z.eqb negb] in H.
  assert (Herr1 : db_error s = 0) by congruence.
  destruct (a <=? 0); apply (my_insert_nosplit_status _ _ _ _ _ _ _ _ Herr1 H).
Qed.

(** *** The split of a page *)

Lemma db_alloc_page_inv (ty : page_type) (db db' : ham_db_t) (id : Z) :
  db_alloc_page ty db = Ret id db' ->
  (id = 0 /\ db_error db' = HAM_OUT_OF_MEMORY) \/
  (extends db db' /\ db_pages db' !! id = Some (fresh_page ty) /\
   exists rest, pager_fresh db = id :: rest /\ pager_fresh db' = rest).
Proof.
  unfold db_alloc_page. destruct (pager_fresh db) as [|x rest].
  - intros [= <- <-]. left. auto.
  - intros [= <- <-]. right. split; [|split].
    + split; [|split; [|split]]; [reflexivity..|]. cbn. intros y Hy.
      destruct (decide (x = y)) as [->|Hne].
      * rewrite lookup_insert_eq. eauto.
      * now rewrite lookup_insert_ne.
    + cbn. apply lookup_insert_eq.
    + eauto.
Qed.

(** The first step of the split either returns early, with the error of
    the database or [HAM_OUT_OF_MEMORY], or it hands on the new page as
    the pivot pointer. *)
Lemma split_move_keys_inv (page : Z) (db db' : ham_db_t)
    (r : ham_status_t + split_t) :
  split_move_keys page db = Ret r db' ->
  match r with
  | inl st => st = db_error db \/ st = HAM_OUT_OF_MEMORY
  | inr s =>
      extends db db' /\
      split_pivotrid s = split_newpage s /\
      is_Some (db_pages db' !! split_newpage s)
  end.
Proof.
  intros H. unfold split_move_keys in H.
  apply bind_inv in H as (newpage & db1 & Halloc & H).
  destruct (db_alloc_page_inv _ _ _ _ Halloc)
    as [[-> Herr]|(E1 & Hnew & _)].
  - cbn [Z.eqb] in H. apply bind_inv in H as (e & s & [= <- <-] & H).
    injection H as <- _. auto.
  - destruct (newpage =? 0).
    + apply bind_inv in H as (e & s & [= <- <-] & H).
      injection H as <- _. left. now destruct E1.
    + pose proof (extends_refl db1) as E.
      do 5 step H E. destruct a3 as [pivotkey|].
      * do 4 step H E. injection H as <- <-. cbn.
        split; [eapply extends_trans; eassumption|]. split; [reflexivity|].
        destruct E as (_ & _ & _ & E). apply E. eauto.
      * unfold bind, db_free_page, db_set_error, modify, ret in H.
        injection H as <- _. auto.
Qed.

Lemma write_page_has_right (x : Z) (f : ham_page_t -> ham_page_t) (y v : Z)
    (db db' : ham_db_t) (u : unit) :
  (forall p, node_right (page_node (f p)) = node_right (page_node p)) ->
  write_page x f db = Ret u db' ->
  has_right db y v -> has_right db' y v.
Proof.
  intros Hf H (p & Hp & Hv). unfold write_page in H.
  destruct (db_pages db !! x) as [q|] eqn:Hq; [|discriminate].
  injection H as _ <-. unfold has_right. cbn.
  destruct (decide (x = y)) as [->|Hne].
  - rewrite lookup_insert_eq. eexists. split; [reflexivity|].
    rewrite Hf. congruence.
  - rewrite lookup_insert_ne by exact Hne. eauto.
Qed.

Lemma log_has_right (e : event) (y v : Z) (db db' : ham_db_t) (u : unit) :
  modify (log_event e) db = Ret u db' -> has_right db y v -> has_right db' y v.
Proof. intros [= _ <-]. auto. Qed.

Lemma set_left_has_right (x w y v : Z) (db db' : ham_db_t) (u : unit) :
  btree_node_set_left x w db = Ret u db' -> has_right db y v -> has_right db' y v.
Proof.
  intros H Hr. unfold btree_node_set_left in H.
  apply bind_inv in H as (? & s & Hw & H).
  eapply log_has_right; [exact H|].
  eapply write_page_has_right; [|exact Hw|exact Hr]. reflexivity.
Qed.

Lemma set_dirty_has_right (x : Z) (d : bool) (y v : Z) (db db' : ham_db_t) (u : unit) :
  page_set_dirty x d db = Ret u db' -> has_right db y v -> has_right db' y v.
Proof.
  intros H Hr. unfold page_set_dirty in H.
  apply bind_inv in H as (? & s & Hw & H).
  eapply log_has_right; [exact H|].
  eapply write_page_has_right; [|exact Hw|exact Hr]. reflexivity.
Qed.

Lemma set_right_has_right (y v : Z) (db db' : ham_db_t) (u : unit) :
  btree_node_set_right y v db = Ret u db' -> has_right db' y v.
Proof.
  intros H. unfold btree_node_set_right in H.
  apply bind_inv in H as (? & s & Hw & H).
  eapply log_has_right; [exact H|].
  unfold write_page in Hw. destruct (db_pages db !! y) as [q|]; [|discriminate].
  injection Hw as _ <-. unfold has_right. cbn. rewrite lookup_insert_eq. eauto.
Qed.

(** After the sibling chain is fixed the new page is the right sibling
    of the old page. *)
Lemma split_link_siblings_right (page newpage : Z) (db db' : ham_db_t) (u : unit) :
  split_link_siblings page newpage db = Ret u db' -> has_right db' page newpage.
Proof.
  intros H. unfold split_link_siblings in H.
  apply bind_inv in H as (right & ? & _ & H).
  apply bind_inv in H as (oldsib & ? & _ & H).
  do 3 (apply bind_inv in H as (? & ? & _ & H)).
  apply bind_inv in H as (? & s1 & Hset & H).
  apply set_right_has_right in Hset.
  apply bind_inv in H as (? & s2 & Hsib & H).
  apply bind_inv in H as (? & s3 & Hd1 & H).
  eapply set_dirty_has_right; [exact H|].
  eapply set_dirty_has_right; [exact Hd1|].
  destruct (negb (oldsib =? 0)).
  - apply bind_inv in Hsib as (? & s4 & Hl & Hd).
    eapply set_dirty_has_right; [exact Hd|].
    eapply set_left_has_right; [exact Hl|exact Hset].
  - injection Hsib as _ <-. exact Hset.
Qed.

Lemma extends_has_right_page (db db' : ham_db_t) (page v : Z) :
  extends db db' -> has_right db page v -> is_Some (db_pages db' !! page).
Proof. intros (_ & _ & _ & E) (p & Hp & _). apply E. eauto. Qed.

Lemma my_insert_split_inv (page : Z) (key : ham_key_t) (rid flags : Z)
    (sp sp' : insert_scratchpad_t) (db db' : ham_db_t) :
  db_error db = 0 ->
  my_insert_split page key rid flags sp db = Ret (SPLIT, sp') db' ->
  split_done page sp sp' db db'.
Proof.
  intros Herr H. unfold my_insert_split in H.
  apply bind_inv in H as (r & db1 & Hmove & H).
  pose proof (split_move_keys_inv _ _ _ _ Hmove) as Hr.
  destruct r as [st|s].
  - injection H as -> _ _. rewrite Herr in Hr. destruct Hr; discriminate.
  - destruct Hr as (E1 & Hrid & Hnew).
    apply bind_inv in H as (st & db2 & Hins & H).
    assert (Herr1 : db_error db1 = 0) by (destruct E1; congruence).
    pose proof (split_insert_key_status _ _ _ _ _ _ _ _ _ _ Herr1 Hins) as Hst.
    pose proof (keeps_split_insert_key _ _ _ _ _ _ _ _ _ _ Hins) as E2.
    destruct (negb (st =? 0)) eqn:Hneg.
    + injection H as -> _ _. destruct Hst as [?|[?|?]]; discriminate.
    + apply bind_inv in H as (u & db3 & Hlink & H).
      pose proof (keeps_split_link_siblings _ _ _ _ _ Hlink) as E3.
      pose proof (split_link_siblings_right _ _ _ _ _ Hlink) as Hright.
      apply bind_inv in H as (u' & db4 & Hfree & H).
      pose proof (keeps_free_scratchpad_key _ _ _ _ Hfree) as E4.
      injection H as <- <-. unfold split_done. cbn. rewrite Hrid.
      assert (Hpages : db_pages db4 = db_pages db3).
      { unfold free_scratchpad_key, ham_mem_free, ret in Hfree.
        destruct (key_data (sp_key sp)); now injection Hfree as _ <-. }
      split; [eauto using extends_trans|]. split; [|split; [|split]].
      * unfold has_right. rewrite Hpages. exact Hright.
      * destruct E4 as (_ & _ & _ & E4). apply E4.
        destruct E3 as (_ & _ & _ & E3). apply E3.
        destruct E2 as (_ & _ & _ & E2). apply E2. exact Hnew.
      * reflexivity.
      * reflexivity.
Qed.

Lemma split_done_extends (page : Z) (sp sp' : insert_scratchpad_t)
    (db db1 db' : ham_db_t) :
  extends db db1 -> split_done page sp sp' db1 db' -> split_done page sp sp' db db'.
Proof.
  intros E (E' & ? & ? & ? & ?). repeat split; auto.
  all: apply (extends_trans _ _ _ E E').
Qed.

Lemma my_insert_in_page_inv (page : Z) (key : ham_key_t) (rid flags : Z)
    (sp sp' : insert_scratchpad_t) (db db' : ham_db_t) :
  db_error db = 0 ->
  my_insert_in_page page key rid flags sp db = Ret (SPLIT, sp') db' ->
  split_done page sp sp' db db'.
Proof.
  intros Herr H. unfold my_insert_in_page in H.
  assert (Hnosplit : forall s1 s2,
            extends db s1 ->
            (st <- my_insert_nosplit page key rid (sp_record sp) flags ;;
             ret (st, sp)) s1 = Ret (SPLIT, sp') s2 -> False).
  { intros s1 s2 E1 H'. apply bind_inv in H' as (st' & s3 & Hn & H').
    injection H' as -> _ _.
    assert (Herr1 : db_error s1 = 0) by (destruct E1; congruence).
    destruct (my_insert_nosplit_status _ _ _ _ _ _ _ _ Herr1 Hn) as [?|[?|?]];
      discriminate. }
  assert (Hsplit : forall s1,
            extends db s1 ->
            my_insert_split page key rid flags sp s1 = Ret (SPLIT, sp') db' ->
            split_done page sp sp' db db').
  { intros s1 E1 H'.
    assert (Herr1 : db_error s1 = 0) by (destruct E1; congruence).
    apply (split_done_extends _ _ _ _ _ _ E1).
    exact (my_insert_split_inv _ _ _ _ _ _ _ _ Herr1 H'). }
  pose proof (extends_refl db) as E.
  step H E.
  apply bind_inv in H as (u & s1 & Hassert & H).
  assert (s1 = s) as ->.
  { unfold ham_assert in Hassert. destruct (_ >? 1); [|discriminate].
    now injection Hassert. }
  step H E.
  destruct (a0 <? a).
  - destruct (Hnosplit _ _ E H).
  - step H E. destruct a1; [|eauto].
    step H E. destruct (a1 >=? 0); [|eauto].
    destruct (has_flag flags OVERWRITE).
    + destruct (Hnosplit _ _ E H).
    + discriminate.
Qed.

(** A recursion that returns [SPLIT] has split the page it was called
    on: the scratchpad names the new right sibling of that page. *)
Lemma my_insert_recursive_inv (fuel : nat) (page : Z) (key : ham_key_t) (rid : Z)
    (sp sp' : insert_scratchpad_t) (db db' : ham_db_t) :
  db_error db = 0 ->
  my_insert_recursive fuel page key rid sp db = Ret (SPLIT, sp') db' ->
  split_done page sp sp' db db'.
Proof.
  revert page sp sp' db db'.
  induction fuel as [|fuel IH]; intros page sp sp' db db' Herr H;
    cbn [my_insert_recursive] in H; [discriminate|].
  pose proof (extends_refl db) as E. step H E.
  assert (Herr0 : db_error s = 0) by (destruct E; congruence).
  destruct a.
  - apply (split_done_extends _ _ _ _ _ _ E).
    exact (my_insert_in_page_inv _ _ _ _ _ _ _ _ Herr0 H).
  - step H E.
    apply bind_inv in H as (u & s1 & Hassert & H).
    assert (s1 = s0) as ->.
    { unfold ham_assert in Hassert. destruct (negb _); [|discriminate].
      now injection Hassert. }
    apply bind_inv in H as ([st sp1] & s2 & Hrec & H). cbn [fst snd] in H.
    assert (Herr1 : db_error s0 = 0) by (destruct E; congruence).
    destruct (Z.eqb_spec st HAM_SUCCESS) as [->|_]; [discriminate|].
    destruct (Z.eqb_spec st HAM_DUPLICATE_KEY) as [->|_]; [discriminate|].
    destruct (Z.eqb_spec st SPLIT) as [->|Hne].
    + destruct (IH _ _ _ _ _ Herr1 Hrec) as (E1 & _ & _ & Hrecord & Hflags).
      assert (Herr2 : db_error s2 = 0) by (destruct E1; congruence).
      destruct (my_insert_in_page_inv _ _ _ _ _ _ _ _ Herr2 H)
        as (E2 & Hr & Hp & Hrecord' & Hflags').
      split; [eauto using extends_trans|].
      split; [exact Hr|]. split; [exact Hp|]. split; congruence.
    + unfold bind, db_set_error, modify, ret in H. injection H as -> _ _.
      contradiction.
Qed.

End InsertFrames.

(** ** The insert engine *)

Section InsertProofs.
Import BtreeInsert.
Context {C : Comparator} {L : NodeLayout}.

Local Abbreviation M := (M ham_db_t).

Lemma read_page_run {A} (db : ham_db_t) (page : Z) (p : ham_page_t)
    (f : ham_page_t -> A) :
  db_pages db !! page = Some p -> read_page page f db = Ret (f p) db.
Proof. unfold read_page. now intros ->. Qed.

Lemma write_page_run (db : ham_db_t) (page : Z) (p : ham_page_t)
    (f : ham_page_t -> ham_page_t) :
  db_pages db !! page = Some p ->
  write_page page f db = Ret tt (set_pages (insert page (f p)) db).
Proof. unfold write_page. now intros ->. Qed.

(** Running the code on a state whose page lookups are known. *)
Ltac page_lookups :=
  repeat first
    [ rewrite lookup_insert_eq
    | rewrite lookup_insert_ne by (assumption || congruence || lia)
    | match goal with
      | H : db_pages _ !! _ = _ |- _ => rewrite H
      end
    | progress cbn ].

Ltac run_insert :=
  repeat (progress (unfold
    btree_node_get_count, btree_node_get_left, btree_node_get_right,
    btree_node_get_ptr_left, btree_node_get_key, btree_node_set_count,
    btree_node_set_ptr_left, btree_node_set_left, btree_node_set_right,
    btree_node_is_leaf, update_key, page_set_dirty, page_set_type,
    db_get_error, db_set_error, btree_get_rootpage, btree_set_rootpage,
    btree_get_maxkeys, db_set_dirty, page_get_self, db_fetch_page,
    key_compare_int_to_pub, memmove_keys, memcpy_keys, ham_assert));
  unfold read_page, write_page, bind, ret, gets, modify, crash;
  page_lookups.

(** *** The sibling chain *)

Lemma link_with_sibling (db : ham_db_t) (page newpage : Z) (p q r : ham_page_t) :
  db_pages db !! page = Some p ->
  db_pages db !! newpage = Some q ->
  db_pages db !! node_right (page_node p) = Some r ->
  node_right (page_node p) <> 0 ->
  page <> newpage ->
  node_right (page_node p) <> page ->
  node_right (page_node p) <> newpage ->
  exists db',
    split_link_siblings page newpage db = Ret tt db' /\
    db_log db' = db_log db
                 ++ link_events page newpage (node_right (page_node p)) true /\
    db_pages db' !! newpage
      = Some (mk_page (page_type_of q) true
                (node_set_right (node_right (page_node p))
                   (node_set_left page (page_node q)))
                (page_cursors q) (page_refcount q)) /\
    db_pages db' !! page
      = Some (mk_page (page_type_of p) true
                (node_set_right newpage (page_node p))
                (page_cursors p) (page_refcount p)) /\
    db_pages db' !! node_right (page_node p)
      = Some (mk_page (page_type_of r) true
                (node_set_left newpage (page_node r))
                (page_cursors r) (page_refcount r)).
Proof.
  intros Hp Hq Hr Hr0 Hpq Hrp Hrq.
  unfold split_link_siblings. run_insert.
  destruct (Z.eqb_spec (node_right (page_node p)) 0) as [?|_]; [contradiction|].
  run_insert.
  destruct (Z.eqb_spec (node_right (page_node p)) 0) as [?|_]; [contradiction|].
  run_insert.
  eexists. split; [reflexivity|]. cbn. unfold link_events.
  rewrite <- !app_assoc. cbn.
  split; [reflexivity|]. page_lookups. repeat split.
Qed.

Lemma link_without_sibling (db : ham_db_t) (page newpage : Z) (p q : ham_page_t) :
  db_pages db !! page = Some p ->
  db_pages db !! newpage = Some q ->
  node_right (page_node p) = 0 \/ db_pages db !! node_right (page_node p) = None ->
  page <> newpage ->
  exists db',
    split_link_siblings page newpage db = Ret tt db' /\
    db_log db' = db_log db
                 ++ link_events page newpage (node_right (page_node p)) false /\
    db_pages db' !! newpage
      = Some (mk_page (page_type_of q) true
                (node_set_right (node_right (page_node p))
                   (node_set_left page (page_node q)))
                (page_cursors q) (page_refcount q)) /\
    db_pages db' !! page
      = Some (mk_page (page_type_of p) true
                (node_set_right newpage (page_node p))
                (page_cursors p) (page_refcount p)).
Proof.
  intros Hp Hq Hr Hpq.
  assert (Hsib : (if negb (node_right (page_node p) =? 0)
                  then db_fetch_page (node_right (page_node p))
                  else ret 0) db = Ret 0 db).
  { destruct Hr as [->|Hr]; [reflexivity|].
    destruct (negb _); [|reflexivity].
    unfold db_fetch_page. now rewrite Hr. }
  unfold split_link_siblings.
  rewrite (bind_run _ _ db db (node_right (page_node p)))
    by (unfold btree_node_get_right; exact (read_page_run db page p _ Hp)).
  rewrite (bind_run _ _ _ _ _ Hsib).
  run_insert.
  eexists. split; [reflexivity|]. cbn. unfold link_events.
  rewrite <- !app_assoc. cbn.
  split; [reflexivity|]. page_lookups. repeat split.
Qed.

(** C9. The writes of the sibling chain are made in the order
    [new.left = old], [new.right = old.right], [old.right = new] and then
    [old.right.left = new] when the pager has the old right sibling
    (which is fetched before the first write); the old right sibling,
    the new page and the old page are marked dirty, in this order, and
    the pointers hold the values named. *)
Theorem C9_sibling_chain_order (db : ham_db_t) (page newpage : Z)
    (p q : ham_page_t) :
  db_pages db !! page = Some p ->
  db_pages db !! newpage = Some q ->
  page <> newpage ->
  node_right (page_node p) <> page ->
  node_right (page_node p) <> newpage ->
  let right := node_right (page_node p) in
  let oldsib := negb (right =? 0) && bool_decide (is_Some (db_pages db !! right)) in
  exists db' p' q',
    split_link_siblings page newpage db = Ret tt db' /\
    db_log db' = db_log db ++ link_events page newpage right oldsib /\
    pointer_writes (link_events page newpage right oldsib)
    = [Set_left newpage page; Set_right newpage right; Set_right page newpage]
      ++ (if oldsib then [Set_left right newpage] else []) /\
    db_pages db' !! newpage = Some q' /\
    node_left (page_node q') = page /\
    node_right (page_node q') = right /\
    page_dirty q' = true /\
    db_pages db' !! page = Some p' /\
    node_right (page_node p') = newpage /\
    page_dirty p' = true /\
    (oldsib = true ->
     exists r', db_pages db' !! right = Some r' /\
                node_left (page_node r') = newpage /\ page_dirty r' = true).
Proof.
  intros Hp Hq Hpq Hrp Hrq right oldsib. subst right oldsib.
  destruct (Z.eqb_spec (node_right (page_node p)) 0) as [E0|E0].
  - destruct (link_without_sibling db page newpage p q Hp Hq (or_introl E0) Hpq)
      as (db' & Hrun & Hlog & Hq' & Hp').
    exists db',
        (mk_page (page_type_of p) true (node_set_right newpage (page_node p))
           (page_cursors p) (page_refcount p)),
        (mk_page (page_type_of q) true
           (node_set_right (node_right (page_node p))
              (node_set_left page (page_node q)))
           (page_cursors q) (page_refcount q)).
      cbn [negb andb].
    repeat split; try assumption; try reflexivity. discriminate.
  - destruct (db_pages db !! node_right (page_node p)) as [r|] eqn:Hr.
    + destruct (link_with_sibling db page newpage p q r Hp Hq Hr E0 Hpq Hrp Hrq)
        as (db' & Hrun & Hlog & Hq' & Hp' & Hr').
      exists db',
        (mk_page (page_type_of p) true (node_set_right newpage (page_node p))
           (page_cursors p) (page_refcount p)),
        (mk_page (page_type_of q) true
           (node_set_right (node_right (page_node p))
              (node_set_left page (page_node q)))
           (page_cursors q) (page_refcount q)).
      cbn [negb andb].
      rewrite bool_decide_eq_true_2 by eauto.
      repeat split; try assumption; try reflexivity.
      intros _. eexists. split; [eassumption|]. split; reflexivity.
    + destruct (link_without_sibling db page newpage p q Hp Hq (or_intror Hr) Hpq)
        as (db' & Hrun & Hlog & Hq' & Hp').
      exists db',
        (mk_page (page_type_of p) true (node_set_right newpage (page_node p))
           (page_cursors p) (page_refcount p)),
        (mk_page (page_type_of q) true
           (node_set_right (node_right (page_node p))
              (node_set_left page (page_node q)))
           (page_cursors q) (page_refcount q)).
      cbn [negb andb].
      rewrite bool_decide_eq_false_2 by (intros [? ?]; discriminate).
      repeat split; try assumption; try reflexivity. discriminate.
Qed.

(** *** The division of a node *)

(** The slots of the new page after [split_move_keys]: the upper half of
    the old node. *)
Lemma split_move_keys_run (db : ham_db_t) (page nid : Z) (rest : list Z)
    (m : nat) (p : ham_page_t) :
  db_pages db !! page = Some p ->
  pager_fresh db = nid :: rest ->
  nid <> 0 ->
  nid <> page ->
  mem_budget db = S m ->
  let N := node_count (page_node p) in
  let pivot := N / 2 in
  let leaf := node_is_leaf (page_node p) in
  let start := if leaf then pivot else pivot + 1 in
  let moved := if leaf then u32 (N - pivot) else u32 (N - pivot - 1) in
  let pivotslot := slot_read (node_entries (page_node p)) pivot in
  exists db',
    split_move_keys page db
    = Ret (inr (mk_split nid pivot
                  (mk_key (key_get_size pivotslot) (Some (key_get_key pivotslot)))
                  nid)) db' /\
    db_pages db' !! page
    = Some (with_node (node_set_count pivot) p) /\
    db_pages db' !! nid
    = Some (with_node (fun _ =>
              mk_node moved 0 0
                (if leaf then 0 else key_get_ptr pivotslot)
                (slots_copy (node_entries (page_node p)) start moved))
              (fresh_page PAGE_TYPE_INDEX)) /\
    db_error db' = db_error db /\
    db_log db' = db_log db /\
    pager_fresh db' = rest.
Proof.
  intros Hp Hfresh Hn0 Hnp Hmem N pivot leaf start moved pivotslot.
  unfold split_move_keys, db_alloc_page, util_copy_key.
  unfold bind at 1. rewrite Hfresh.
  destruct (Z.eqb_spec nid 0) as [?|_]; [contradiction|].
  subst start moved. fold N. destruct leaf eqn:Hleaf; subst leaf.
  - run_insert. fold N pivot. rewrite Hleaf. run_insert.
    rewrite Hmem. run_insert. fold N pivot. rewrite Hleaf. run_insert.
    rewrite node_is_leaf_count, Hleaf. run_insert.
    eexists. split; [reflexivity|]. cbn. page_lookups.
    unfold with_node, fresh_page, node_set_count, node_set_entries, node_set_ptr_left.
    cbn. rewrite slots_blit_fresh. repeat split.
  - run_insert. fold N pivot. rewrite Hleaf. run_insert.
    rewrite Hmem. run_insert. fold N pivot. rewrite Hleaf. run_insert.
    rewrite node_is_leaf_count, Hleaf. run_insert.
    eexists. split; [reflexivity|]. cbn. page_lookups.
    unfold with_node, fresh_page, node_set_count, node_set_entries, node_set_ptr_left.
    cbn. rewrite slots_blit_fresh. repeat split.
Qed.

(** C5. [split_move_keys] on a node of count [N] divides at
    [pivot = N / 2].  The old node keeps its slots and has count [pivot];
    the pivot key is a copy of the key of slot [pivot] and the pivot
    pointer is the id of the new page.  For a leaf the new page receives
    the slots [pivot .. N), so the pivot key stays in the leaves as its
    slot 0; for an internal node it receives the slots [pivot+1 .. N) and
    the pointer of slot [pivot] becomes its left pointer. *)
Theorem C5_split_divides_at_pivot (db : ham_db_t) (page nid : Z)
    (rest : list Z) (m : nat) (p : ham_page_t) :
  db_pages db !! page = Some p ->
  pager_fresh db = nid :: rest ->
  nid <> 0 ->
  nid <> page ->
  mem_budget db = S m ->
  1 <= node_count (page_node p) < 2 ^ 32 ->
  let N := node_count (page_node p) in
  let pivot := N / 2 in
  let old := node_entries (page_node p) in
  exists db' p' q pivotkey,
    split_move_keys page db = Ret (inr (mk_split nid pivot pivotkey nid)) db' /\
    db_pages db' !! page = Some p' /\
    db_pages db' !! nid = Some q /\
    node_count (page_node p') = pivot /\
    node_entries (page_node p') = old /\
    key_data pivotkey = Some (key_get_key (slot_read old pivot)) /\
    key_size pivotkey = key_get_size (slot_read old pivot) /\
    (node_is_leaf (page_node p) = true ->
     node_count (page_node q) = N - pivot /\
     (forall i, 0 <= i < N - pivot ->
        slot_read (node_entries (page_node q)) i = slot_read old (pivot + i)) /\
     slot_read (node_entries (page_node q)) 0 = slot_read old pivot) /\
    (node_is_leaf (page_node p) = false ->
     node_count (page_node q) = N - pivot - 1 /\
     (forall i, 0 <= i < N - pivot - 1 ->
        slot_read (node_entries (page_node q)) i = slot_read old (pivot + 1 + i)) /\
     node_ptr_left (page_node q) = key_get_ptr (slot_read old pivot)).
Proof.
  intros Hp Hfresh Hn0 Hnp Hmem HN N pivot old.
  destruct (split_move_keys_run db page nid rest m p Hp Hfresh Hn0 Hnp Hmem)
    as (db' & Hrun & Hp' & Hq & _).
  fold N pivot old in Hrun, Hp', Hq.
  assert (Hpiv : 0 <= pivot /\ 1 <= N - pivot /\ N - pivot < 2 ^ 32).
  { subst pivot. fold N in HN. Z.to_euclidean_division_equations. lia. }
  eexists db', _, _, _. split; [exact Hrun|].
  split; [exact Hp'|]. split; [exact Hq|].
  unfold with_node, node_set_count.
  cbn [page_node node_count node_entries node_ptr_left key_data key_size].
  do 4 (split; [reflexivity|]). split.
  - intros Hleaf. rewrite Hleaf, u32_small by lia.
    split; [reflexivity|]. split.
    + intros i Hi. now apply slot_read_copy.
    + rewrite (slot_read_copy old pivot (N - pivot) 0) by lia.
      now rewrite Z.add_0_r.
  - intros Hleaf. rewrite Hleaf, u32_small by lia.
    split; [reflexivity|]. split; [|reflexivity].
    intros i Hi. apply slot_read_copy; lia.
Qed.

(** *** The side of the inserted key *)

(** C4. After the division the key of slot [pivot] of the old node is
    compared with the inserted key.  If the pivot key is less than or
    equal to the inserted key, the key is inserted into the new right
    sibling, otherwise (the inserted key is less than the pivot key) into
    the old left node; both times by [my_insert_nosplit] with [NOFLUSH]
    among its flags. *)
Theorem C4_split_insert_side (db : ham_db_t) (page newpage pivot : Z)
    (key : ham_key_t) (rid : Z) (record : ham_record_t) (flags : Z)
    (p : ham_page_t) :
  db_pages db !! page = Some p ->
  db_error db = 0 ->
  let pivotkey := key_get_key (slot_read (node_entries (page_node p)) pivot) in
  (compare_keys pivotkey (key_bytes key) <= 0 ->
   split_insert_key page newpage pivot key rid record flags db
   = my_insert_nosplit newpage key rid record (Z.lor flags NOFLUSH) db) /\
  (compare_keys pivotkey (key_bytes key) > 0 ->
   split_insert_key page newpage pivot key rid record flags db
   = my_insert_nosplit page key rid record (Z.lor flags NOFLUSH) db) /\
  has_flag (Z.lor flags NOFLUSH) NOFLUSH = true.
Proof.
  intros Hp Herr pivotkey.
  assert (Hcmp : key_compare_int_to_pub page pivot key db
                 = Ret (compare_keys pivotkey (key_bytes key)) db).
  { unfold key_compare_int_to_pub, btree_node_get_key.
    rewrite (bind_run _ _ db db _ (read_page_run db page p _ Hp)). reflexivity. }
  unfold split_insert_key. rewrite (bind_run _ _ _ _ _ Hcmp).
  rewrite (bind_run _ _ db db 0) by (unfold db_get_error, gets; now rewrite Herr).
  cbn [Z.eqb negb]. split; [|split].
  - intros Hle. destruct (Z.leb_spec (compare_keys pivotkey (key_bytes key)) 0);
      [reflexivity|lia].
  - intros Hgt. destruct (Z.leb_spec (compare_keys pivotkey (key_bytes key)) 0);
      [lia|reflexivity].
  - apply (has_flag_set flags NOFLUSH 0); [lia|reflexivity].
Qed.

(** *** A key that is already present *)

Section Present.

(** The comparator orders the keys: a key below a second key is below
    every key that equals the second. *)
Hypothesis compare_lt_eq : forall a b k : list Z,
  compare_keys a b < 0 -> compare_keys b k = 0 -> compare_keys a k < 0.

Variables (db : ham_db_t) (page : Z) (p : ham_page_t) (key : ham_key_t) (j : Z).
Hypothesis Hpage : db_pages db !! page = Some p.
Hypothesis Herror : db_error db = 0.
Hypothesis Hsorted : page_sorted p.
Hypothesis Hholds : page_holds_key p key j.

Lemma compare_run (i : Z) :
  key_compare_int_to_pub page i key db
  = Ret (compare_keys (slot_key p i) (key_bytes key)) db.
Proof.
  unfold key_compare_int_to_pub, btree_node_get_key.
  now rewrite (bind_run _ _ db db _ (read_page_run db page p _ Hpage)).
Qed.

Lemma below_present_key (i : Z) :
  0 <= i < j -> compare_keys (slot_key p i) (key_bytes key) < 0.
Proof.
  intros Hi. destruct Hholds as [Hj Heq].
  apply (compare_lt_eq _ (slot_key p j)); [apply Hsorted; lia|exact Heq].
Qed.

(** The scan of [my_insert_nosplit] stops at the slot of the key, before
    any slot is moved. *)
Lemma nosplit_scan_present (flags count : Z) (n : nat) (i : Z) :
  0 <= i <= j ->
  (Z.to_nat (j - i) < n)%nat ->
  nosplit_scan n page key flags count i db
  = Ret (Returned (if has_flag flags OVERWRITE
                   then HAM_SUCCESS else HAM_DUPLICATE_KEY)) db.
Proof.
  revert i. induction n as [|n IH]; intros i Hi Hn; [lia|].
  cbn [nosplit_scan]. rewrite (bind_run _ _ _ _ _ (compare_run i)).
  rewrite (bind_run _ _ db db 0) by (unfold db_get_error, gets; now rewrite Herror).
  cbn [Z.eqb negb].
  destruct (Z.eq_dec i j) as [->|Hne].
  - destruct Hholds as [_ ->]. cbn [Z.eqb]. now destruct (has_flag flags OVERWRITE).
  - pose proof (below_present_key i ltac:(lia)) as Hlt.
    destruct (Z.eqb_spec (compare_keys (slot_key p i) (key_bytes key)) 0); [lia|].
    destruct (Z.gtb_spec (compare_keys (slot_key p i) (key_bytes key)) 0); [lia|].
    apply IH; lia.
Qed.

Lemma my_insert_nosplit_present (rid : Z) (record : ham_record_t) (flags : Z) :
  my_insert_nosplit page key rid record flags db
  = Ret (if has_flag flags OVERWRITE then HAM_SUCCESS else HAM_DUPLICATE_KEY) db.
Proof.
  unfold my_insert_nosplit, btree_node_get_count.
  rewrite (bind_run _ _ db db _ (read_page_run db page p _ Hpage)).
  destruct Hholds as [Hj _].
  rewrite (bind_run _ _ db db _
             (nosplit_scan_present flags (node_count (page_node p))
                (Z.to_nat (node_count (page_node p))) 0 ltac:(lia) ltac:(lia))).
  reflexivity.
Qed.

Lemma search_from_present (n : nat) (i : Z) :
  0 <= i <= j ->
  (Z.to_nat (j - i) < n)%nat ->
  search_from n page key i db = Ret j db.
Proof.
  revert i. induction n as [|n IH]; intros i Hi Hn; [lia|].
  cbn [search_from]. rewrite (bind_run _ _ _ _ _ (compare_run i)).
  destruct (Z.eq_dec i j) as [->|Hne].
  - destruct Hholds as [_ ->]. reflexivity.
  - pose proof (below_present_key i ltac:(lia)) as Hlt.
    destruct (Z.eqb_spec (compare_keys (slot_key p i) (key_bytes key)) 0); [lia|].
    apply IH; lia.
Qed.

(** [my_insert_in_page] on the leaf that holds the key, split or not. *)
Lemma my_insert_in_page_present (rid flags : Z) (sp : insert_scratchpad_t) :
  btree_maxkeys db > 1 ->
  node_is_leaf (page_node p) = true ->
  my_insert_in_page page key rid flags sp db
  = Ret (if has_flag flags OVERWRITE then HAM_SUCCESS else HAM_DUPLICATE_KEY, sp) db.
Proof.
  intros Hmax Hleaf. unfold my_insert_in_page.
  rewrite (bind_run _ _ db db (btree_maxkeys db)) by reflexivity.
  destruct (Z.gtb_spec (btree_maxkeys db) 1) as [_|?]; [|lia].
  unfold ham_assert. rewrite (bind_run _ _ db db tt) by reflexivity.
  unfold btree_node_get_count.
  rewrite (bind_run _ _ db db _ (read_page_run db page p _ Hpage)).
  destruct (node_count (page_node p) <? btree_maxkeys db).
  - rewrite (bind_run _ _ _ _ _ (my_insert_nosplit_present rid _ flags)).
    reflexivity.
  - unfold btree_node_is_leaf.
    rewrite (bind_run _ _ db db _ (read_page_run db page p _ Hpage)).
    rewrite Hleaf. unfold btree_node_search_by_key, btree_node_get_count.
    destruct Hholds as [Hj _].
    rewrite (bind_run _ _ db db j)
      by (rewrite (bind_run _ _ db db _ (read_page_run db page p _ Hpage));
          apply search_from_present; lia).
    destruct (Z.geb_spec j 0) as [_|?]; [|lia].
    destruct (has_flag flags OVERWRITE) eqn:Hov; [|reflexivity].
    rewrite (bind_run _ _ _ _ _ (my_insert_nosplit_present rid _ flags)).
    now rewrite Hov.
Qed.

End Present.

Lemma descends_page (db : ham_db_t) (key : ham_key_t) (page leaf : Z) (n : nat) :
  descends db key page leaf n -> is_Some (db_pages db !! page).
Proof. intros [? ? Hp _|? ? ? ? ? Hp _ _ _ _]; eauto. Qed.

(** The recursion hands [HAM_DUPLICATE_KEY] up from the leaf and changes
    nothing, whatever number of levels the descent has. *)
Lemma my_insert_recursive_present (db : ham_db_t) (key : ham_key_t)
    (page leaf : Z) (n : nat) (p : ham_page_t) (j : Z) :
  (forall a b k : list Z,
     compare_keys a b < 0 -> compare_keys b k = 0 -> compare_keys a k < 0) ->
  db_error db = 0 ->
  btree_maxkeys db > 1 ->
  descends db key page leaf n ->
  db_pages db !! leaf = Some p ->
  page_sorted p ->
  page_holds_key p key j ->
  forall fuel rid sp, (n < fuel)%nat ->
    my_insert_recursive fuel page key rid sp db = Ret (HAM_DUPLICATE_KEY, sp) db.
Proof.
  intros Hcmp Herr Hmax Hdesc Hleafpage Hsorted Hholds.
  induction Hdesc as [page q Hq Hleaf|page child leaf q n Hq Hleaf Htrav Hchild Hdesc IH];
    intros fuel rid sp Hfuel.
  - destruct fuel as [|fuel]; [lia|]. cbn [my_insert_recursive].
    unfold btree_node_is_leaf.
    rewrite (bind_run _ _ db db _ (read_page_run db page q _ Hq)). rewrite Hleaf.
    assert (q = p) as -> by congruence.
    now rewrite (my_insert_in_page_present Hcmp db page p key j Hq Herr Hsorted
                   Hholds rid 0 sp Hmax Hleaf).
  - destruct fuel as [|fuel]; [lia|]. cbn [my_insert_recursive].
    unfold btree_node_is_leaf.
    rewrite (bind_run _ _ db db _ (read_page_run db page q _ Hq)). rewrite Hleaf.
    rewrite (bind_run _ _ _ _ _ Htrav).
    destruct (Z.eqb_spec child 0) as [?|_]; [contradiction|].
    unfold ham_assert. cbn [negb]. rewrite (bind_run _ _ db db tt) by reflexivity.
    rewrite (bind_run _ _ _ _ _ (IH Hleafpage fuel rid sp ltac:(lia))).
    reflexivity.
Qed.

Lemma btree_insert_present (db : ham_db_t) (key : ham_key_t) (n : nat) :
  (forall a b k : list Z,
     compare_keys a b < 0 -> compare_keys b k = 0 -> compare_keys a k < 0) ->
  db_error db = 0 ->
  btree_rootpage db <> 0 ->
  btree_maxkeys db > 1 ->
  tree_holds_key db key n ->
  forall fuel record flags, (n < fuel)%nat ->
    btree_insert fuel key record flags db = Ret HAM_DUPLICATE_KEY db.
Proof.
  intros Hcmp Herr Hroot Hmax (leaf & p & j & Hdesc & Hp & Hsorted & Hholds)
    fuel record flags Hfuel.
  unfold btree_insert.
  rewrite (bind_run _ _ db db (btree_rootpage db)) by reflexivity.
  destruct (Z.eqb_spec (btree_rootpage db) 0) as [?|_]; [contradiction|].
  unfold ham_assert. cbn [negb]. rewrite (bind_run _ _ db db tt) by reflexivity.
  destruct (descends_page _ _ _ _ _ Hdesc) as [r Hr].
  rewrite (bind_run _ _ db db (btree_rootpage db))
    by (unfold db_fetch_page; now rewrite Hr).
  rewrite (bind_run _ _ _ _ _
             (my_insert_recursive_present db key _ leaf n p j Hcmp Herr Hmax Hdesc
                Hp Hsorted Hholds fuel 0 _ Hfuel)).
  reflexivity.
Qed.

(** C2. The key being present in the tree, an insert without OVERWRITE
    returns [HAM_DUPLICATE_KEY] and leaves the database as it was: no
    page is allocated, no slot moved or written, no page marked dirty,
    and the slot of the key keeps its record.  The same holds for
    [my_insert_in_page] and [my_insert_nosplit] on the page of the key. *)
Theorem C2_duplicate_key_rejected (db : ham_db_t) (key : ham_key_t) (n : nat)
    (record : ham_record_t) (flags : Z) (fuel : nat) :
  (forall a b k : list Z,
     compare_keys a b < 0 -> compare_keys b k = 0 -> compare_keys a k < 0) ->
  db_error db = 0 ->
  btree_rootpage db <> 0 ->
  btree_maxkeys db > 1 ->
  tree_holds_key db key n ->
  has_flag flags OVERWRITE = false ->
  (n < fuel)%nat ->
  btree_insert fuel key record flags db = Ret HAM_DUPLICATE_KEY db /\
  (forall page p j rid sp,
     db_pages db !! page = Some p ->
     page_sorted p ->
     page_holds_key p key j ->
     my_insert_nosplit page key rid record flags db = Ret HAM_DUPLICATE_KEY db /\
     (node_is_leaf (page_node p) = true ->
      my_insert_in_page page key rid flags sp db = Ret (HAM_DUPLICATE_KEY, sp) db)).
Proof.
  intros Hcmp Herr Hroot Hmax Hkey Hflags Hfuel. split.
  - now apply (btree_insert_present db key n).
  - intros page p j rid sp Hp Hsorted Hholds. split.
    + rewrite (my_insert_nosplit_present Hcmp db page p key j Hp Herr Hsorted Hholds).
      now rewrite Hflags.
    + intros Hleaf.
      rewrite (my_insert_in_page_present Hcmp db page p key j Hp Herr Hsorted
                 Hholds rid flags sp Hmax Hleaf).
      now rewrite Hflags.
Qed.


(** *** The first key of an internal page *)

Lemma is_leaf_mk (c l r pl : Z) (es : list int_key_t) (c' : Z)
    (es' : list int_key_t) :
  node_is_leaf (mk_node c l r pl es) = node_is_leaf (mk_node c' l r pl es').
Proof.
  rewrite <- (node_is_leaf_count c' (mk_node c l r pl es)).
  rewrite <- (node_is_leaf_entries es' (node_set_count c' (mk_node c l r pl es))).
  reflexivity.
Qed.

(** [my_insert_nosplit] on an internal page without entries writes the
    key and the pointer into slot 0. *)
Lemma my_insert_nosplit_first_key (db : ham_db_t) (page : Z) (ty : page_type)
    (d : bool) (l r pl : Z) (cs : list Z) (rc : Z) (key : ham_key_t) (rid : Z)
    (record : ham_record_t) (flags : Z) :
  db_pages db !! page = Some (mk_page ty d (mk_node 0 l r pl []) cs rc) ->
  node_is_leaf (mk_node 0 l r pl []) = false ->
  exists db',
    my_insert_nosplit page key rid record flags db = Ret 0 db' /\
    db_pages db'
    = <[page := mk_page ty true
                  (mk_node 1 l r pl
                     [mk_int_key (key_bytes key) (key_size key) 0 rid]) cs rc]>
        (db_pages db) /\
    btree_rootpage db' = btree_rootpage db /\
    db_dirty db' = db_dirty db.
Proof.
  intros Hp Hleaf. unfold my_insert_nosplit.
  rewrite (bind_run _ _ db db 0)
    by (unfold btree_node_get_count; now rewrite (read_page_run db page _ _ Hp)).
  change (Z.to_nat 0) with O. cbn [nosplit_scan].
  rewrite (bind_run _ _ db db (Stopped 0)) by reflexivity.
  run_insert. rewrite Hleaf. run_insert.
  rewrite node_is_leaf_entries, Hleaf. run_insert.
  eexists. split; [reflexivity|]. cbn.
  rewrite !insert_insert_eq.
  change (u32 (0 + 1)) with 1.
  unfold with_node, node_set_count, node_set_entries, slot_write, slot_read,
    slots_blit, pad, key_set_flags, key_set_key, key_set_ptr, key_set_size, key0.
  change (Z.to_nat 0) with O. cbn. repeat split.
Qed.

(** *** The split of the root *)

(** C3. When the recursion on the root returns [SPLIT] and the pager
    hands out a new page, [btree_insert] returns 0 and the new page is
    the root: its type is ROOT, its left pointer the id of the old root,
    its only slot holds the pivot key of the scratchpad with the pivot
    pointer, and this pointer is the page that the split made the right
    sibling of the old root.  The backend has the new root page id, the
    database is dirty, the old root is still a page of the pager and has
    the type INDEX. *)
Theorem C3_root_split (fuel : nat) (db db1 : ham_db_t) (key : ham_key_t)
    (record : ham_record_t) (flags : Z) (sp : insert_scratchpad_t)
    (nr : Z) (rest : list Z) :
  db_error db = 0 ->
  btree_rootpage db <> 0 ->
  is_Some (db_pages db !! btree_rootpage db) ->
  my_insert_recursive fuel (btree_rootpage db) key 0
    (mk_scratchpad flags record (mk_key 0 None) 0) db = Ret (SPLIT, sp) db1 ->
  pager_fresh db1 = nr :: rest ->
  nr <> 0 ->
  db_pages db1 !! nr = None ->
  node_is_leaf (node_set_ptr_left (btree_rootpage db) node0) = false ->
  exists db2 r1,
    btree_insert fuel key record flags db = Ret HAM_SUCCESS db2 /\
    btree_rootpage db2 = nr /\
    db_dirty db2 = true /\
    db_pages db2 !! nr
    = Some (mk_page PAGE_TYPE_ROOT true
              (mk_node 1 0 0 (btree_rootpage db)
                 [mk_int_key (key_bytes (sp_key sp)) (key_size (sp_key sp)) 0
                    (sp_rid sp)]) [] 0) /\
    db_pages db1 !! btree_rootpage db = Some r1 /\
    db_pages db2 !! btree_rootpage db
    = Some (mk_page PAGE_TYPE_INDEX (page_dirty r1) (page_node r1)
              (page_cursors r1) (page_refcount r1)) /\
    node_right (page_node r1) = sp_rid sp /\
    is_Some (db_pages db2 !! sp_rid sp).
Proof.
  intros Herr Hroot [r0 Hr0] Hrec Hfresh Hnr0 Hnr Hinternal.
  destruct (my_insert_recursive_inv _ _ _ _ _ _ _ _ Herr Hrec)
    as ((_ & Hroot1 & _ & Hgrow) & (r1 & Hr1 & Hright) & [q Hq] & Hrecord & _).
  assert (Hne : nr <> btree_rootpage db) by congruence.
  assert (Hne' : nr <> sp_rid sp) by congruence.
  unfold btree_insert.
  rewrite (bind_run _ _ db db (btree_rootpage db)) by reflexivity.
  destruct (Z.eqb_spec (btree_rootpage db) 0) as [?|_]; [contradiction|].
  unfold ham_assert. cbn [negb]. rewrite (bind_run _ _ db db tt) by reflexivity.
  rewrite (bind_run _ _ db db (btree_rootpage db))
    by (unfold db_fetch_page; now rewrite Hr0).
  rewrite (bind_run _ _ _ _ _ Hrec). cbn [fst snd Z.eqb SPLIT Pos.eqb].
  unfold db_alloc_page. unfold bind at 1. rewrite Hfresh.
  destruct (Z.eqb_spec nr 0) as [?|_]; [contradiction|].
  unfold page_set_type at 1. unfold bind at 1.
  erewrite write_page_run by (cbn; apply lookup_insert_eq).
  unfold btree_get_rootpage. unfold bind at 1, gets at 1. cbn [btree_rootpage set_pages set_pager_fresh].
  rewrite Hroot1.
  unfold btree_node_set_ptr_left. unfold bind at 1.
  erewrite write_page_run by (cbn; apply lookup_insert_eq).
  match goal with
  | |- context [bind (my_insert_nosplit nr ?k ?rid ?rec ?fl) _ ?s] =>
      destruct (my_insert_nosplit_first_key s nr PAGE_TYPE_ROOT false 0 0
                  (btree_rootpage db) [] 0 k rid rec fl)
        as (sD & Hrun & Hpages & HrootD & HdirtyD);
        [cbn; apply lookup_insert_eq|exact Hinternal|]
  end.
  rewrite (bind_run _ _ _ _ _ Hrun). cbn [Z.eqb negb].
  cbn [db_pages set_pages set_pager_fresh] in Hpages.
  rewrite !insert_insert_eq in Hpages.
  unfold btree_set_rootpage, db_set_dirty, page_get_self.
  unfold bind at 1, modify at 1. unfold bind at 1, modify at 1.
  unfold page_set_type. unfold bind at 1.
  erewrite write_page_run
    by (cbn; rewrite Hpages, lookup_insert_ne by exact Hne; exact Hr1).
  assert (Hfree : exists db2,
            free_scratchpad_key sp
              (set_pages
                 <[btree_rootpage db := mk_page PAGE_TYPE_INDEX (page_dirty r1)
                                          (page_node r1) (page_cursors r1)
                                          (page_refcount r1)]>
                 (set_dirty true (set_rootpage nr sD))) = Ret tt db2 /\
            db_pages db2
            = <[btree_rootpage db := mk_page PAGE_TYPE_INDEX (page_dirty r1)
                                       (page_node r1) (page_cursors r1)
                                       (page_refcount r1)]> (db_pages sD) /\
            btree_rootpage db2 = nr /\ db_dirty db2 = true).
  { unfold free_scratchpad_key. destruct (key_data (sp_key sp));
      eexists; (split; [reflexivity|]); repeat split. }
  destruct Hfree as (db2 & Hfree & Hpages2 & Hroot2 & Hdirty2).
  rewrite (bind_run _ _ _ _ _ Hfree).
  exists db2, r1. split; [reflexivity|].
  split; [exact Hroot2|]. split; [exact Hdirty2|].
  rewrite Hpages2, Hpages. split.
  { rewrite lookup_insert_ne by congruence. now rewrite lookup_insert_eq. }
  split; [exact Hr1|]. split; [now rewrite lookup_insert_eq|].
  split; [exact Hright|].
  destruct (decide (btree_rootpage db = sp_rid sp)) as [<-|Hd].
  - rewrite lookup_insert_eq. eauto.
  - rewrite lookup_insert_ne by exact Hd.
    rewrite lookup_insert_ne by exact Hne'. eauto.
Qed.

End InsertProofs.

Lemma C5_split_divides_at_pivot_witness :
  exists db' p' q pivotkey,
    BtreeInsert.split_move_keys (NL := Examples.ptr_left_layout) 1
      Examples.insert_db_full
    = Ret (inr (BtreeInsert.mk_split 2 2 pivotkey 2)) db' /\
    BtreeInsert.db_pages db' !! 1 = Some p' /\
    BtreeInsert.db_pages db' !! 2 = Some q /\
    node_count (page_node p') = 2 /\
    node_count (page_node q) = 2 /\
    key_data pivotkey = Some [30] /\
    slot_read (node_entries (page_node q)) 0 = Examples.slot_of 30 /\
    slot_read (node_entries (page_node q)) 1 = Examples.slot_of 40.
Proof.
  destruct (C5_split_divides_at_pivot (L := Examples.ptr_left_layout)
              Examples.insert_db_full 1 2 [3] 3
              (Examples.leaf_page PAGE_TYPE_ROOT [10; 20; 30; 40] 0 0)
              ltac:(vm_compute; reflexivity) ltac:(vm_compute; reflexivity)
              ltac:(discriminate) ltac:(discriminate)
              ltac:(vm_compute; reflexivity)
              ltac:(split; [discriminate|reflexivity]))
    as (db' & p' & q & pivotkey & Hrun & Hp' & Hq & Hcount & _ & Hkey & _ & Hleaf & _).
  destruct (Hleaf eq_refl) as (Hcq & Hslots & H0).
  exists db', p', q, pivotkey.
  split; [exact Hrun|]. split; [exact Hp'|]. split; [exact Hq|].
  split; [exact Hcount|]. split; [exact Hcq|]. split; [exact Hkey|].
  split; [exact H0|]. exact (Hslots 1 ltac:(split; [discriminate|reflexivity])).
Defined.

Lemma C9_sibling_chain_order_witness :
  exists db',
    BtreeInsert.split_link_siblings 1 2 Examples.insert_db_chain = Ret tt db' /\
    BtreeInsert.db_log db'
    = [BtreeInsert.Set_left 2 1; BtreeInsert.Set_right 2 3;
       BtreeInsert.Set_right 1 2; BtreeInsert.Set_left 3 2;
       BtreeInsert.Set_dirty 3; BtreeInsert.Set_dirty 2; BtreeInsert.Set_dirty 1].
Proof.
  destruct (C9_sibling_chain_order Examples.insert_db_chain 1 2
              (Examples.leaf_page PAGE_TYPE_INDEX [10; 20] 0 3)
              (Examples.leaf_page PAGE_TYPE_INDEX [30; 40] 0 0)
              ltac:(vm_compute; reflexivity) ltac:(vm_compute; reflexivity)
              ltac:(discriminate) ltac:(discriminate) ltac:(discriminate))
    as (db' & p' & q' & Hrun & Hlog & _).
  exists db'. split; [exact Hrun|exact Hlog].
Defined.

(** C9, the order of the specification fails: with page 3 as the right
    sibling of page 1, linking the new page 2 writes the right pointer of
    page 1 before the left pointer of page 3. *)
Lemma C9_spec_order_counterexample :
  exists db',
    BtreeInsert.split_link_siblings 1 2 Examples.insert_db_chain = Ret tt db' /\
    BtreeInsert.pointer_writes (BtreeInsert.db_log db')
    = [BtreeInsert.Set_left 2 1; BtreeInsert.Set_right 2 3;
       BtreeInsert.Set_right 1 2; BtreeInsert.Set_left 3 2] /\
    BtreeInsert.pointer_writes (BtreeInsert.db_log db')
    <> BtreeInsert.spec_link_order 1 2 3.
Proof.
  eexists. split; [vm_compute; reflexivity|].
  split; [vm_compute; reflexivity|]. vm_compute. discriminate.
Qed.

Lemma C4_split_insert_side_witness :
  BtreeInsert.split_insert_key (CMP := Examples.lex_comparator)
    (NL := Examples.ptr_left_layout) 1 2 2 (Examples.key_of 35) 0
    Examples.empty_record 0 Examples.insert_db_halved
  = BtreeInsert.my_insert_nosplit (CMP := Examples.lex_comparator)
      (NL := Examples.ptr_left_layout) 2 (Examples.key_of 35) 0
      Examples.empty_record (Z.lor 0 NOFLUSH) Examples.insert_db_halved.
Proof.
  apply (C4_split_insert_side (C := Examples.lex_comparator)
           (L := Examples.ptr_left_layout) Examples.insert_db_halved 1 2 2
           (Examples.key_of 35) 0 Examples.empty_record 0
           (mk_page PAGE_TYPE_ROOT false
              (mk_node 2 0 0 0 (map Examples.slot_of [10; 20; 30; 40])) [] 0)).
  - vm_compute. reflexivity.
  - vm_compute. reflexivity.
  - vm_compute. discriminate.
Defined.

(** C4, the comparison of the specification fails: the key 5 is less
    than or equal to the pivot key 30, and the split of the full root
    [10; 20; 30; 40] inserts it into the old left node, not into the new
    right sibling; the key 35 is greater than the pivot key and goes to
    the new right sibling. *)
Lemma C4_spec_side_counterexample :
  Examples.lex_compare [5] [30] <= 0 /\
  (exists db' sp',
     BtreeInsert.my_insert_split (CMP := Examples.lex_comparator)
       (NL := Examples.ptr_left_layout) 1 (Examples.key_of 5) 0 0
       (BtreeInsert.mk_scratchpad 0 Examples.empty_record (mk_key 0 None) 0)
       Examples.insert_db_full
     = Ret (SPLIT, sp') db' /\
     BtreeInsert.page_keys db' 1 = [[5]; [10]; [20]] /\
     BtreeInsert.page_keys db' 2 = [[30]; [40]]) /\
  Examples.lex_compare [35] [30] > 0 /\
  (exists db' sp',
     BtreeInsert.my_insert_split (CMP := Examples.lex_comparator)
       (NL := Examples.ptr_left_layout) 1 (Examples.key_of 35) 0 0
       (BtreeInsert.mk_scratchpad 0 Examples.empty_record (mk_key 0 None) 0)
       Examples.insert_db_full
     = Ret (SPLIT, sp') db' /\
     BtreeInsert.page_keys db' 1 = [[10]; [20]] /\
     BtreeInsert.page_keys db' 2 = [[30]; [35]; [40]]).
Proof.
  split; [discriminate|]. split.
  - eexists _, _. split; [vm_compute; reflexivity|].
    split; vm_compute; reflexivity.
  - split; [reflexivity|].
    eexists _, _. split; [vm_compute; reflexivity|].
    split; vm_compute; reflexivity.
Qed.

(** *** The present key, on a tree of two levels *)

Lemma insert_db_two_levels_reached :
  Examples.insert_keys [10; 20; 30; 40; 50] Examples.insert_db_empty
  = Ret tt Examples.insert_db_two_levels.
Proof. vm_compute. reflexivity. Qed.

Lemma insert_db_halved_reached :
  exists s,
    BtreeInsert.split_move_keys (NL := Examples.ptr_left_layout) 1
      Examples.insert_db_full
    = Ret (inr s) Examples.insert_db_halved.
Proof. eexists. vm_compute. reflexivity. Qed.

Lemma lex_compare_eq (a b : list Z) : Examples.lex_compare a b = 0 -> a = b.
Proof.
  revert b. induction a as [|x a IH]; intros [|y b]; cbn; try discriminate;
    [reflexivity|].
  destruct (Z.ltb_spec x y); [discriminate|].
  destruct (Z.ltb_spec y x); [discriminate|].
  intros Hab. f_equal; [lia|now apply IH].
Qed.

Lemma lex_compare_lt_eq (a b k : list Z) :
  Examples.lex_compare a b < 0 -> Examples.lex_compare b k = 0 ->
  Examples.lex_compare a k < 0.
Proof. intros Hab Hbk. now rewrite <- (lex_compare_eq b k Hbk). Qed.

Lemma two_levels_holds_40 :
  BtreeInsert.tree_holds_key (CMP := Examples.lex_comparator)
    (NL := Examples.ptr_left_layout) Examples.insert_db_two_levels
    (Examples.key_of 40) 1.
Proof.
  exists 2. eexists. exists 1. split; [|split; [vm_compute; reflexivity|split]].
  - eapply (BtreeInsert.descends_step _ _ 3 2 2).
    + vm_compute. reflexivity.
    + vm_compute. reflexivity.
    + vm_compute. reflexivity.
    + discriminate.
    + eapply BtreeInsert.descends_leaf; vm_compute; reflexivity.
  - intros i j Hi Hij Hj. cbn in Hj.
    assert (Hcases : (i = 0 /\ j = 1) \/ (i = 0 /\ j = 2) \/ (i = 1 /\ j = 2))
      by lia.
    destruct Hcases as [[-> ->]|[[-> ->]|[-> ->]]]; vm_compute; reflexivity.
  - split; [split; [discriminate|reflexivity]|vm_compute; reflexivity].
Qed.

Lemma C2_duplicate_key_rejected_witness :
  BtreeInsert.btree_insert (CMP := Examples.lex_comparator)
    (NL := Examples.ptr_left_layout) 2 (Examples.key_of 40)
    Examples.record_xy 0 Examples.insert_db_two_levels
  = Ret HAM_DUPLICATE_KEY Examples.insert_db_two_levels.
Proof.
  apply (C2_duplicate_key_rejected (C := Examples.lex_comparator)
           (L := Examples.ptr_left_layout) Examples.insert_db_two_levels
           (Examples.key_of 40) 1 Examples.record_xy 0 2).
  - exact lex_compare_lt_eq.
  - vm_compute. reflexivity.
  - vm_compute. discriminate.
  - vm_compute. reflexivity.
  - exact two_levels_holds_40.
  - vm_compute. reflexivity.
  - lia.
Defined.



(** *** The split of a root that is a full leaf *)

Lemma C3_root_split_witness :
  exists db2 r1,
    BtreeInsert.btree_insert (CMP := Examples.lex_comparator)
      (NL := Examples.ptr_left_layout) 1 (Examples.key_of 50)
      Examples.empty_record 0 Examples.insert_db_full = Ret HAM_SUCCESS db2 /\
    BtreeInsert.btree_rootpage db2 = 3 /\
    BtreeInsert.db_dirty db2 = true /\
    BtreeInsert.db_pages db2 !! 3
    = Some (mk_page PAGE_TYPE_ROOT true
              (mk_node 1 0 0 1 [mk_int_key [30] 1 0 2]) [] 0) /\
    BtreeInsert.db_pages Examples.insert_db_root_split !! 1 = Some r1 /\
    BtreeInsert.db_pages db2 !! 1
    = Some (mk_page PAGE_TYPE_INDEX (page_dirty r1) (page_node r1)
              (page_cursors r1) (page_refcount r1)) /\
    node_right (page_node r1) = 2 /\
    is_Some (BtreeInsert.db_pages db2 !! 2).
Proof.
  apply (C3_root_split (C := Examples.lex_comparator)
           (L := Examples.ptr_left_layout) 1 Examples.insert_db_full
           Examples.insert_db_root_split (Examples.key_of 50)
           Examples.empty_record 0
           (BtreeInsert.mk_scratchpad 0 Examples.empty_record
              (mk_key 1 (Some [30])) 2) 3 []).
  - vm_compute. reflexivity.
  - vm_compute. discriminate.
  - vm_compute. eexists. reflexivity.
  - vm_compute. reflexivity.
  - vm_compute. reflexivity.
  - discriminate.
  - vm_compute. reflexivity.
  - vm_compute. reflexivity.
Defined.
